(** * API metrics aggregation: [getApiMetrics]

    A shallow embedding of [getApiMetrics] and of its local helper
    [getTotalTokensFromMessage], followed by the properties of the
    aggregation that the specification states.

    Modelling conventions.
    - A JavaScript [number] is an exact rational ([Q]). Totals are stated
      as sums taken from left to right, in the order in which the code
      adds. [requestCount], which only ever grows by one, is a natural
      number.
    - [message.text] is only ever tested for truthiness and handed to
      [JSON.parse]; it is represented by what those two observations see
      ([Text]).
    - Of a parsed object only the ten members that the function destructures
      are kept ([Payload]). A numeric member is [Some q] when it holds the
      number [q]; it is [None] when it is absent or holds a falsy value that
      is not a number ([null], [false], the empty string) and, for [cost],
      [startTime], [endTime] and [duration], which the function only tests
      with [typeof], when it holds any value that is not a number.
      [provider] and [modelId] are [Some s] when they hold the string [s],
      and [None] when absent or falsy and not a string. Not covered are
      payloads with a truthy value that is not a number under one of the
      four token names, or a truthy value that is not a string under
      [provider] or [modelId].
    - The four by-provider / by-model records are finite maps holding the
      records' own properties; a read goes on to [Object.prototype] when
      the record has no own property under the key ([Js]).
    - A message object is identified by its position in the array; the
      array is taken to hold distinct objects. (Were one object stored at
      two positions, [contextTokens] would be assigned the same value at
      both.)
    - Exceptions and the console are explicit: a computation runs in an
      environment made of the local [result] object and the console, and
      either completes or throws. *)

From Stdlib Require Import QArith.
From stdpp Require Import gmap strings list sorting.

(** ** Numbers *)

(** [x > 0] *)
Definition gt0 (x : Q) : bool := (0 <? Qnum x)%Z.

(** Truthiness of a number: every number except zero. *)
Definition truthy (x : Q) : bool := negb (Qnum x =? 0)%Z.

(** [v || 0] for a value that is a number or undefined. *)
Definition or0 (v : option Q) : Q :=
  match v with
  | Some x => if truthy x then x else 0%Q
  | None => 0%Q
  end.

(** [v ?? 0] *)
Definition nullish0 (v : option Q) : Q :=
  match v with
  | Some x => x
  | None => 0%Q
  end.

(** [v || 0] for a tally held as a natural number. *)
Definition or0n (v : option nat) : nat :=
  match v with
  | Some n => n
  | None => 0
  end.

(** Truthiness of a string-or-undefined value: a non-empty string. *)
Definition truthy_str (v : option string) : option string :=
  match v with
  | Some EmptyString => None
  | Some s => Some s
  | None => None
  end.

(** ** Objects used as records

    The by-provider and by-model records, like the accumulators of the
    view, start as [{}] and are read and written as [record[key]]. A read
    that finds no own property goes on to [Object.prototype]; a write makes
    an own property, except under [__proto__], whose setter ignores a value
    that is not an object. *)

(** The members of [Object.prototype] that are functions, [constructor]
    apart. *)
Definition prototype_functions : list string :=
  ["__defineGetter__"; "__defineSetter__"; "hasOwnProperty";
   "__lookupGetter__"; "__lookupSetter__"; "isPrototypeOf";
   "propertyIsEnumerable"; "toString"; "valueOf"; "toLocaleString"]%string.

(** The text a member of [Object.prototype] turns into when a number is
    added to it; [None] for a name that [Object.prototype] does not have.
    [constructor] is the function [Object]; [__proto__] reads as the
    prototype object itself. *)
Definition member_text (k : string) : option string :=
  if String.eqb k "__proto__" then Some "[object Object]"%string
  else if String.eqb k "constructor"
       then Some "function Object() { [native code] }"%string
  else if existsb (String.eqb k) prototype_functions
       then Some ("function " ++ k ++ "() { [native code] }")%string
  else None.

(** The key is the name of a member of [Object.prototype]. *)
Definition inherited_name (k : string) : bool :=
  match member_text k with
  | Some _ => true
  | None => false
  end.

Module Js.

(** What a read of such a record can give, and what the record can hold: a
    number; a text [s] followed by the numbers appended to it since, in
    order; or, read only, a member of [Object.prototype], given by the text
    it turns into. *)
Inductive value : Type :=
| Num (q : Q)
| Str (s : string) (appended : list Q)
| Member (text : string).

(** [record[k]]: the own property, else the inherited member, else
    undefined. *)
Definition read (own : gmap string value) (k : string) : option value :=
  match own !! k with
  | Some v => Some v
  | None => Member <$> member_text k
  end.

(** [v || 0] *)
Definition or0 (v : option value) : value :=
  match v with
  | Some (Num q) => if truthy q then Num q else Num 0
  | Some (Str EmptyString []) => Num 0
  | Some (Str s appended) => Str s appended
  | Some (Member text) => Member text
  | None => Num 0
  end.

(** [v + n] for a number [n]: a sum when [v] is a number, a concatenation
    otherwise. *)
Definition add (v : value) (n : Q) : value :=
  match v with
  | Num q => Num (q + n)
  | Str s appended => Str s (appended ++ [n])
  | Member text => Str text [n]
  end.

(** [record[k] = v] for a number or text [v]: the setter of [__proto__]
    ignores it; any other key becomes an own property. *)
Definition write (own : gmap string value) (k : string) (v : value)
  : gmap string value :=
  if String.eqb k "__proto__" then own else <[k := v]> own.

(** A natural number, as the number a record holds. *)
Definition of_nat (n : nat) : value := Num (inject_Z (Z.of_nat n)).

End Js.

(** ** Messages and payloads *)

(** The members that the function reads off a parsed payload. *)
Record Payload : Type := mkPayload {
  tokensIn : option Q;
  tokensOut : option Q;
  cacheWrites : option Q;
  cacheReads : option Q;
  cost : option Q;
  startTime : option Q;
  endTime : option Q;
  duration : option Q;
  provider : option string;
  modelId : option string
}.

(** What destructuring finds in a value that has none of the ten members
    (a number, a string, a boolean, an array, an object without them). *)
Definition no_members : Payload :=
  mkPayload None None None None None None None None None None.

(** The values [JSON.parse] can return. The elements of an array are not
    kept: none of them is reachable under one of the ten member names. *)
Inductive json : Type :=
| JNull
| JBool (b : bool)
| JNum (q : Q)
| JStr (s : string)
| JArr
| JObj (p : Payload).

(** [message.text] when it is present: the empty string, a non-empty string
    that [JSON.parse] rejects, or a (non-empty) string that encodes a JSON
    value. *)
Inductive Text : Type :=
| EmptyText
| Malformed (raw : string)
| Encodes (v : json).

Inductive MessageType : Type := TypeAsk | TypeSay.

Record ClineMessage : Type := mkMessage {
  ts : Z;
  type : MessageType;
  say : option string;
  text : option Text
}.

(** ** The result record *)

Module Entry.
(** One element of [performanceHistory]. *)
Record t : Type := mk {
  ts : Z;
  duration : Q;
  tokensIn : option Q;
  tokensOut : option Q;
  provider : option string;
  modelId : option string
}.
End Entry.

Record ApiMetrics : Type := mkApiMetrics {
  totalTokensIn : Q;
  totalTokensOut : Q;
  totalCacheWrites : option Q;
  totalCacheReads : option Q;
  totalCost : Q;
  contextTokens : Q;
  totalDuration : Q;
  requestCount : nat;
  averageDuration : Q;
  requestsByProvider : gmap string Js.value;
  requestsByModel : gmap string Js.value;
  durationByProvider : gmap string Js.value;
  durationByModel : gmap string Js.value;
  performanceHistory : list Entry.t
}.

(** Field assignments, [result.f = v]. *)
Definition set_totalTokensIn v (r : ApiMetrics) :=
  mkApiMetrics v (totalTokensOut r) (totalCacheWrites r) (totalCacheReads r)
    (totalCost r) (contextTokens r) (totalDuration r) (requestCount r)
    (averageDuration r) (requestsByProvider r) (requestsByModel r)
    (durationByProvider r) (durationByModel r) (performanceHistory r).
Definition set_totalTokensOut v (r : ApiMetrics) :=
  mkApiMetrics (totalTokensIn r) v (totalCacheWrites r) (totalCacheReads r)
    (totalCost r) (contextTokens r) (totalDuration r) (requestCount r)
    (averageDuration r) (requestsByProvider r) (requestsByModel r)
    (durationByProvider r) (durationByModel r) (performanceHistory r).
Definition set_totalCacheWrites v (r : ApiMetrics) :=
  mkApiMetrics (totalTokensIn r) (totalTokensOut r) v (totalCacheReads r)
    (totalCost r) (contextTokens r) (totalDuration r) (requestCount r)
    (averageDuration r) (requestsByProvider r) (requestsByModel r)
    (durationByProvider r) (durationByModel r) (performanceHistory r).
Definition set_totalCacheReads v (r : ApiMetrics) :=
  mkApiMetrics (totalTokensIn r) (totalTokensOut r) (totalCacheWrites r) v
    (totalCost r) (contextTokens r) (totalDuration r) (requestCount r)
    (averageDuration r) (requestsByProvider r) (requestsByModel r)
    (durationByProvider r) (durationByModel r) (performanceHistory r).
Definition set_totalCost v (r : ApiMetrics) :=
  mkApiMetrics (totalTokensIn r) (totalTokensOut r) (totalCacheWrites r)
    (totalCacheReads r) v (contextTokens r) (totalDuration r) (requestCount r)
    (averageDuration r) (requestsByProvider r) (requestsByModel r)
    (durationByProvider r) (durationByModel r) (performanceHistory r).
Definition set_contextTokens v (r : ApiMetrics) :=
  mkApiMetrics (totalTokensIn r) (totalTokensOut r) (totalCacheWrites r)
    (totalCacheReads r) (totalCost r) v (totalDuration r) (requestCount r)
    (averageDuration r) (requestsByProvider r) (requestsByModel r)
    (durationByProvider r) (durationByModel r) (performanceHistory r).
Definition set_totalDuration v (r : ApiMetrics) :=
  mkApiMetrics (totalTokensIn r) (totalTokensOut r) (totalCacheWrites r)
    (totalCacheReads r) (totalCost r) (contextTokens r) v (requestCount r)
    (averageDuration r) (requestsByProvider r) (requestsByModel r)
    (durationByProvider r) (durationByModel r) (performanceHistory r).
Definition set_requestCount v (r : ApiMetrics) :=
  mkApiMetrics (totalTokensIn r) (totalTokensOut r) (totalCacheWrites r)
    (totalCacheReads r) (totalCost r) (contextTokens r) (totalDuration r) v
    (averageDuration r) (requestsByProvider r) (requestsByModel r)
    (durationByProvider r) (durationByModel r) (performanceHistory r).
Definition set_averageDuration v (r : ApiMetrics) :=
  mkApiMetrics (totalTokensIn r) (totalTokensOut r) (totalCacheWrites r)
    (totalCacheReads r) (totalCost r) (contextTokens r) (totalDuration r)
    (requestCount r) v (requestsByProvider r) (requestsByModel r)
    (durationByProvider r) (durationByModel r) (performanceHistory r).
Definition set_requestsByProvider v (r : ApiMetrics) :=
  mkApiMetrics (totalTokensIn r) (totalTokensOut r) (totalCacheWrites r)
    (totalCacheReads r) (totalCost r) (contextTokens r) (totalDuration r)
    (requestCount r) (averageDuration r) v (requestsByModel r)
    (durationByProvider r) (durationByModel r) (performanceHistory r).
Definition set_requestsByModel v (r : ApiMetrics) :=
  mkApiMetrics (totalTokensIn r) (totalTokensOut r) (totalCacheWrites r)
    (totalCacheReads r) (totalCost r) (contextTokens r) (totalDuration r)
    (requestCount r) (averageDuration r) (requestsByProvider r) v
    (durationByProvider r) (durationByModel r) (performanceHistory r).
Definition set_durationByProvider v (r : ApiMetrics) :=
  mkApiMetrics (totalTokensIn r) (totalTokensOut r) (totalCacheWrites r)
    (totalCacheReads r) (totalCost r) (contextTokens r) (totalDuration r)
    (requestCount r) (averageDuration r) (requestsByProvider r)
    (requestsByModel r) v (durationByModel r) (performanceHistory r).
Definition set_durationByModel v (r : ApiMetrics) :=
  mkApiMetrics (totalTokensIn r) (totalTokensOut r) (totalCacheWrites r)
    (totalCacheReads r) (totalCost r) (contextTokens r) (totalDuration r)
    (requestCount r) (averageDuration r) (requestsByProvider r)
    (requestsByModel r) (durationByProvider r) v (performanceHistory r).
Definition set_performanceHistory v (r : ApiMetrics) :=
  mkApiMetrics (totalTokensIn r) (totalTokensOut r) (totalCacheWrites r)
    (totalCacheReads r) (totalCost r) (contextTokens r) (totalDuration r)
    (requestCount r) (averageDuration r) (requestsByProvider r)
    (requestsByModel r) (durationByProvider r) (durationByModel r) v.

(** ** Exceptions, the console, and the monad of the function body *)

Inductive Error : Type := SyntaxError | TypeError.

(** What the body of [getApiMetrics] can touch: its local [result] object
    and the console. *)
Record Env : Type := mkEnv {
  result : ApiMetrics;
  console : list Error
}.

(** A computation either completes with a value or throws; the environment
    survives either way. *)
Definition M (A : Type) : Type := Env -> (Error + A) * Env.

Definition ret {A} (a : A) : M A := fun env => (inr a, env).

Definition bind {A B} (c : M A) (k : A -> M B) : M B :=
  fun env =>
    match c env with
    | (inr a, env') => k a env'
    | (inl e, env') => (inl e, env')
    end.

Definition throw {A} (e : Error) : M A := fun env => (inl e, env).

(** [try { c } catch (error) { h error }] *)
Definition try_catch {A} (c : M A) (h : Error -> M A) : M A :=
  fun env =>
    match c env with
    | (inr a, env') => (inr a, env')
    | (inl e, env') => h e env'
    end.

Declare Scope js_scope.
Delimit Scope js_scope with js.
Notation "x <- c ;; k" := (bind c (fun x => k))
  (at level 100, c at next level, right associativity) : js_scope.
Notation "c ;;; k" := (bind c (fun _ => k))
  (at level 100, right associativity) : js_scope.

(** [result.f = ...] and reads of [result]. *)
Definition update (f : ApiMetrics -> ApiMetrics) : M unit :=
  fun env => (inr tt, mkEnv (f (result env)) (console env)).

Definition read {A} (f : ApiMetrics -> A) : M A :=
  fun env => (inr (f (result env)), env).

(** [console.error("Error parsing JSON:", error)] *)
Definition console_error (error : Error) : M unit :=
  fun env => (inr tt, mkEnv (result env) (console env ++ [error])).

(** [if (c) { body }] *)
Definition when (c : bool) (body : M unit) : M unit :=
  if c then body else ret tt.

(** [if (typeof v === "number") { body v }] *)
Definition when_number (v : option Q) (body : Q -> M unit) : M unit :=
  match v with
  | Some x => body x
  | None => ret tt
  end.

(** [if (v) { body v }] for a string-or-undefined [v]. *)
Definition when_string (v : option string) (body : string -> M unit) : M unit :=
  match truthy_str v with
  | Some s => body s
  | None => ret tt
  end.

(** [messages.forEach(f)] *)
Fixpoint forEach {A} (f : A -> M unit) (l : list A) : M unit :=
  match l with
  | [] => ret tt
  | x :: l' => (f x ;;; forEach f l')%js
  end.

(** ** [JSON.parse] and destructuring *)

Definition JSON_parse (t : Text) : M json :=
  match t with
  | Encodes v => ret v
  | EmptyText | Malformed _ => throw SyntaxError
  end.

(** [const { tokensIn, ..., modelId } = v]: a [TypeError] on [null]; on any
    other value each name is looked up and is undefined when missing. *)
Definition destructure (v : json) : M Payload :=
  match v with
  | JNull => throw TypeError
  | JObj p => ret p
  | JBool _ | JNum _ | JStr _ | JArr => ret no_members
  end.

(** [message.text] used as a condition. *)
Definition text_truthy (t : option Text) : option Text :=
  match t with
  | Some EmptyText => None
  | Some t => Some t
  | None => None
  end.

(** [message.type === "say" && message.say === "api_req_started"] *)
Definition is_api_req_started (message : ClineMessage) : bool :=
  match type message with
  | TypeSay => bool_decide (say message = Some "api_req_started"%string)
  | TypeAsk => false
  end.

(** ** Message objects *)

(** A message object of the array: its position and its content.
    [a === b] on two of them compares positions. *)
Definition Ref : Type := nat * ClineMessage.

Definition objects (messages : list ClineMessage) : list Ref :=
  imap pair messages.

Definition same_object (a : Ref) (b : option Ref) : bool :=
  match b with
  | Some o => (a.1 =? o.1)%nat
  | None => false
  end.

(** [array.find(pred)] *)
Fixpoint find_ {A} (pred : A -> M bool) (l : list A) : M (option A) :=
  match l with
  | [] => ret None
  | x :: l' => (b <- pred x ;; if b : bool then ret (Some x) else find_ pred l')%js
  end.

(** ** The function *)

Local Open Scope js_scope.

Definition getTotalTokensFromMessage (message : ClineMessage) : M Q :=
  match text_truthy (text message) with
  | None => ret 0%Q
  | Some t =>
      try_catch
        (v <- JSON_parse t ;;
         p <- destructure v ;;
         ret (or0 (tokensIn p) + or0 (tokensOut p)
              + or0 (cacheWrites p) + or0 (cacheReads p))%Q)
        (fun _ => ret 0%Q)
  end.

(** The predicate handed to [find]. *)
Definition has_tokens (message : Ref) : M bool :=
  if is_api_req_started message.2 then
    n <- getTotalTokensFromMessage message.2 ;; ret (gt0 n)
  else ret false.

(** The statements of the [try] block that follow the destructuring. *)
Definition accumulate (lastApiReq : option Ref) (message : Ref) (p : Payload)
  : M unit :=
  when_number (tokensIn p) (fun x =>
    update (fun r => set_totalTokensIn (totalTokensIn r + x)%Q r)) ;;;
  when_number (tokensOut p) (fun x =>
    update (fun r => set_totalTokensOut (totalTokensOut r + x)%Q r)) ;;;
  when_number (cacheWrites p) (fun x =>
    update (fun r =>
      set_totalCacheWrites (Some (nullish0 (totalCacheWrites r) + x)%Q) r)) ;;;
  when_number (cacheReads p) (fun x =>
    update (fun r =>
      set_totalCacheReads (Some (nullish0 (totalCacheReads r) + x)%Q) r)) ;;;
  when_number (cost p) (fun x =>
    update (fun r => set_totalCost (totalCost r + x)%Q r)) ;;;
  update (fun r => set_requestCount (requestCount r + 1) r) ;;;
  let requestDuration : Q :=
    match duration p with
    | Some d => d
    | None =>
        match startTime p, endTime p with
        | Some s, Some e => (e - s)%Q
        | _, _ => 0%Q
        end
    end in
  when (gt0 requestDuration)
    (update (fun r =>
       set_totalDuration (totalDuration r + requestDuration)%Q r) ;;;
     update (fun r =>
       set_performanceHistory
         (performanceHistory r ++
          [Entry.mk (ts message.2) requestDuration (tokensIn p)
             (tokensOut p) (provider p) (modelId p)]) r) ;;;
     when_string (provider p) (fun k =>
       update (fun r =>
         set_requestsByProvider
           (Js.write (requestsByProvider r) k
              (Js.add (Js.or0 (Js.read (requestsByProvider r) k)) 1)) r) ;;;
       update (fun r =>
         set_durationByProvider
           (Js.write (durationByProvider r) k
              (Js.add (Js.or0 (Js.read (durationByProvider r) k))
                 requestDuration)) r)) ;;;
     when_string (modelId p) (fun k =>
       update (fun r =>
         set_requestsByModel
           (Js.write (requestsByModel r) k
              (Js.add (Js.or0 (Js.read (requestsByModel r) k)) 1)) r) ;;;
       update (fun r =>
         set_durationByModel
           (Js.write (durationByModel r) k
              (Js.add (Js.or0 (Js.read (durationByModel r) k))
                 requestDuration)) r))) ;;;
  when (same_object message lastApiReq)
    (n <- getTotalTokensFromMessage message.2 ;;
     update (set_contextTokens n)).

(** The callback handed to [forEach]. *)
Definition on_message (lastApiReq : option Ref) (message : Ref) : M unit :=
  match (if is_api_req_started message.2
         then text_truthy (text message.2) else None) with
  | None => ret tt
  | Some t =>
      try_catch
        (v <- JSON_parse t ;;
         p <- destructure v ;;
         accumulate lastApiReq message p)
        (fun error => console_error error)
  end.

(** The object literal [result] starts from. *)
Definition initial : ApiMetrics :=
  mkApiMetrics 0 0 None None 0 0 0 0 0 ∅ ∅ ∅ ∅ [].

Definition getApiMetrics_body (messages : list ClineMessage) : M ApiMetrics :=
  let objs := objects messages in
  lastApiReq <- find_ has_tokens (rev objs) ;;
  forEach (on_message lastApiReq) objs ;;;
  r <- read id ;;
  when ((0 <? requestCount r)%nat && gt0 (totalDuration r))
    (update (set_averageDuration
       (totalDuration r / inject_Z (Z.of_nat (requestCount r)))%Q)) ;;;
  read id.

(** A call of [getApiMetrics]: [result] is created afresh; the console is
    whatever it was. *)
Definition getApiMetrics (messages : list ClineMessage) (log : list Error)
  : (Error + ApiMetrics) * list Error :=
  let '(out, env) := getApiMetrics_body messages (mkEnv initial log) in
  (out, console env).

Definition started (t : Z) (x : Text) : ClineMessage :=
  mkMessage t TypeSay (Some "api_req_started"%string) (Some x).

(** ** Vocabulary of the specification *)

(** The payload an event hands to the running totals, when it hands one:
    the event is tagged as an API-request start, its text is non-empty and
    parses, and the parsed value can be destructured. *)
Definition payload_of (m : ClineMessage) : option Payload :=
  if is_api_req_started m then
    match text m with
    | Some (Encodes (JObj p)) => Some p
    | Some (Encodes (JBool _ | JNum _ | JStr _ | JArr)) => Some no_members
    | Some (Encodes JNull) | Some EmptyText | Some (Malformed _) | None => None
    end
  else None.

(** The combined token count of an event: 0 without a payload or when the
    payload does not parse, else the sum of the four token members, a
    missing one counting as 0. *)
Definition combinedTokens (m : ClineMessage) : Q :=
  match text m with
  | Some (Encodes (JObj p)) =>
      (or0 (tokensIn p) + or0 (tokensOut p)
       + or0 (cacheWrites p) + or0 (cacheReads p))%Q
  | _ => 0%Q
  end.

(** An event that can supply [contextTokens]. *)
Definition qualifies (m : ClineMessage) : bool :=
  is_api_req_started m && gt0 (combinedTokens m).

(** The derived duration of a request: the explicit [duration], else
    [endTime - startTime] when both are numbers, else 0. *)
Definition requestDuration (p : Payload) : Q :=
  match duration p with
  | Some d => d
  | None =>
      match startTime p, endTime p with
      | Some s, Some e => (e - s)%Q
      | _, _ => 0%Q
      end
  end.

(** The events that reach the running totals, in order, each with its
    timestamp. *)
Definition processed (messages : list ClineMessage) : list (Z * Payload) :=
  omap (fun m => pair (ts m) <$> payload_of m) messages.

(** Those of them that have a positive derived duration. *)
Definition positive (tp : Z * Payload) : bool := gt0 (requestDuration tp.2).

Definition timed (messages : list ClineMessage) : list (Z * Payload) :=
  List.filter positive (processed messages).

Definition entry_of (tp : Z * Payload) : Entry.t :=
  Entry.mk tp.1 (requestDuration tp.2) (tokensIn tp.2) (tokensOut tp.2)
    (provider tp.2) (modelId tp.2).

(** Left-to-right sum, as a running total computes it. *)
Definition sumQ (l : list Q) : Q := fold_left Qplus l 0%Q.

Definition json_parsable (m : ClineMessage) : bool :=
  match text m with
  | Some (Encodes _) => true
  | _ => false
  end.

Definition parses_to_non_null (m : ClineMessage) : bool :=
  match text m with
  | Some (Encodes JNull) => false
  | Some (Encodes _) => true
  | _ => false
  end.

(** The numeric occurrences of a member among the processed payloads. *)
Definition occurrences (field : Payload -> option Q)
    (messages : list ClineMessage) : list Q :=
  omap (fun tp => field tp.2) (processed messages).

(** The text of the message is unusable: absent, empty, rejected by
    [JSON.parse], or the encoding of [null]. *)
Definition unusable (m : ClineMessage) : bool :=
  match text m with
  | Some (Encodes JNull) | Some EmptyText | Some (Malformed _) | None => true
  | Some (Encodes _) => false
  end.

(** The text of the message is valid JSON for a value that is neither
    [null] nor an object: a number, a string, a boolean or an array. *)
Definition encodes_plain_value (m : ClineMessage) : bool :=
  match text m with
  | Some (Encodes (JBool _ | JNum _ | JStr _ | JArr)) => true
  | _ => false
  end.

(** The text of the message is not valid JSON, or is valid JSON for
    something other than an object. *)
Definition not_a_json_object (m : ClineMessage) : bool :=
  match text m with
  | Some (Encodes (JObj _)) => false
  | _ => true
  end.

(** The invariant that ties a request tally to the matching duration
    record. *)
Definition tied (cnt : gmap string nat) (dur : gmap string Q) : Prop :=
  dom cnt = dom dur
  /\ (forall k n, cnt !! k = Some n -> 1 <= n)
  /\ (forall k d, dur !! k = Some d -> (0 < d)%Q).

(** ** The effect of one message, and of the whole scan, in closed form *)

Definition add_number (total : Q) (v : option Q) : Q :=
  match v with Some x => (total + x)%Q | None => total end.

Definition add_cache (total : option Q) (v : option Q) : option Q :=
  match v with Some x => Some (nullish0 total + x)%Q | None => total end.

(** [if (k) record[k] = (record[k] || 0) + 1] *)
Definition tally (k : option string) (m : gmap string Js.value)
  : gmap string Js.value :=
  match truthy_str k with
  | Some s => Js.write m s (Js.add (Js.or0 (Js.read m s)) 1)
  | None => m
  end.

(** [if (k) record[k] = (record[k] || 0) + d] *)
Definition charge (k : option string) (d : Q) (m : gmap string Js.value)
  : gmap string Js.value :=
  match truthy_str k with
  | Some s => Js.write m s (Js.add (Js.or0 (Js.read m s)) d)
  | None => m
  end.

(** The same two updates on plain numbers under the records' own keys:
    what [tally] and [charge] come to when no key is the name of a member
    of [Object.prototype]. *)
Definition own_tally (k : option string) (m : gmap string nat)
  : gmap string nat :=
  match truthy_str k with
  | Some s => <[s := or0n (m !! s) + 1]> m
  | None => m
  end.

Definition own_charge (k : option string) (d : Q) (m : gmap string Q)
  : gmap string Q :=
  match truthy_str k with
  | Some s => <[s := (or0 (m !! s) + d)%Q]> m
  | None => m
  end.

(** The member [sel] ([provider] or [modelId]) of every event of the list
    is absent, empty, or a name that [Object.prototype] does not have. *)
Definition ordinary_keys (sel : Payload -> option string)
    (l : list (Z * Payload)) : Prop :=
  Forall (fun tp => match truthy_str (sel tp.2) with
                    | Some k => inherited_name k = false
                    | None => True
                    end) l.

(** Everything one payload does to [result], [contextTokens] apart. *)
Definition absorb (tp : Z * Payload) (r : ApiMetrics) : ApiMetrics :=
  let p := tp.2 in
  let d := requestDuration p in
  {| totalTokensIn := add_number (totalTokensIn r) (tokensIn p);
     totalTokensOut := add_number (totalTokensOut r) (tokensOut p);
     totalCacheWrites := add_cache (totalCacheWrites r) (cacheWrites p);
     totalCacheReads := add_cache (totalCacheReads r) (cacheReads p);
     totalCost := add_number (totalCost r) (cost p);
     contextTokens := contextTokens r;
     totalDuration := if gt0 d then (totalDuration r + d)%Q else totalDuration r;
     requestCount := requestCount r + 1;
     averageDuration := averageDuration r;
     requestsByProvider :=
       if gt0 d then tally (provider p) (requestsByProvider r)
       else requestsByProvider r;
     requestsByModel :=
       if gt0 d then tally (modelId p) (requestsByModel r)
       else requestsByModel r;
     durationByProvider :=
       if gt0 d then charge (provider p) d (durationByProvider r)
       else durationByProvider r;
     durationByModel :=
       if gt0 d then charge (modelId p) d (durationByModel r)
       else durationByModel r;
     performanceHistory :=
       if gt0 d then performanceHistory r ++ [entry_of tp]
       else performanceHistory r |}.

Definition absorb_all (ps : list (Z * Payload)) (r : ApiMetrics) : ApiMetrics :=
  fold_left (fun r tp => absorb tp r) ps r.

(** What the callback does to [result]. *)
Definition step (lastApiReq : option Ref) (r : ApiMetrics) (o : Ref)
  : ApiMetrics :=
  match payload_of o.2 with
  | Some p =>
      let r' := absorb (ts o.2, p) r in
      if same_object o lastApiReq
      then set_contextTokens (combinedTokens o.2) r' else r'
  | None => r
  end.

(** What the callback writes to the console. *)
Definition logged (m : ClineMessage) : list Error :=
  if is_api_req_started m then
    match text m with
    | Some (Malformed _) => [SyntaxError]
    | Some (Encodes JNull) => [TypeError]
    | _ => []
    end
  else [].

(** The last step of the function. *)
Definition finish (r : ApiMetrics) : ApiMetrics :=
  if (0 <? requestCount r)%nat && gt0 (totalDuration r)
  then set_averageDuration
         (totalDuration r / inject_Z (Z.of_nat (requestCount r)))%Q r
  else r.

(** [contextTokens] of the result, read off the input. *)
Definition context_of (messages : list ClineMessage) : Q :=
  match find qualifies (rev messages) with
  | Some m => combinedTokens m
  | None => 0%Q
  end.

(** ** Concrete inputs *)

Definition scenario1 : list ClineMessage :=
  [started 1000 (Encodes (JObj
     (mkPayload (Some 10%Q) (Some 20%Q) None None (Some (5 # 1000)%Q)
        None None (Some 150%Q) (Some "openai"%string) (Some "gpt-4"%string))))].

Definition tokens_only (i o : Q) : Payload :=
  mkPayload (Some i) (Some o) None None None None None None None None.

Definition duration_only (d : Q) : Payload :=
  mkPayload None None None None None None None (Some d) None None.

(** Two requests that report tokens, then one whose text is not JSON. *)
Definition three_requests : list ClineMessage :=
  [started 1 (Encodes (JObj (tokens_only 10 0)));
   started 2 (Encodes (JObj (tokens_only 5 7)));
   started 3 (Malformed "not json")].

(** A request of 150 ms followed by one that reports [duration: 0]. *)
Definition with_zero_duration : list ClineMessage :=
  [started 1 (Encodes (JObj (duration_only 150)));
   started 2 (Encodes (JObj (duration_only 0)))].

(** [text: "null"] *)
Definition null_payload : ClineMessage := started 1 (Encodes JNull).

(** [text: "5"] *)
Definition number_payload : ClineMessage := started 1 (Encodes (JNum 5)).

(** [text: '{"duration":5}'] *)
Definition duration_payload : ClineMessage :=
  started 1 (Encodes (JObj (duration_only 5))).

(** ** Further vocabulary for the aggregation *)

(** The error the callback catches on a message, when it catches one: the
    message is tagged as an API-request start, its text is non-empty, and
    either [JSON.parse] rejects it or it encodes [null]. *)
Definition failure (m : ClineMessage) : option Error :=
  if is_api_req_started m then
    match text m with
    | Some (Malformed _) => Some SyntaxError
    | Some (Encodes JNull) => Some TypeError
    | _ => None
    end
  else None.



(** The record the function returns, in closed form. *)
Definition closed (messages : list ClineMessage) : ApiMetrics :=
  finish (set_contextTokens (context_of messages)
            (absorb_all (processed messages) initial)).

(** ** [PerformanceView]: the data prepared for the charts

    The effect of [PerformanceView] turns [clineMessages] into three pieces
    of state: the extracted requests, and their aggregation by provider and
    by model. It reads [duration] and [cost] with [||], so here a payload
    with a truthy value that is not a number under those two names is not
    covered either. The two aggregation objects are finite maps holding
    their own properties, read through [Object.prototype] like the records
    above; [Object.values] of each is handed to the charts, and the order
    of that array is not modelled. *)

Module View.

(** One extracted request. *)
Record PerformanceData : Type := mkData {
  timestamp : Z;
  duration : Q;
  tokensIn : Q;
  tokensOut : Q;
  provider : string;
  modelId : string;
  cost : Q
}.

(** One value of [providerStats] or [modelStats]; [name] is the member
    [provider], respectively [modelId]. *)
Record Stats : Type := mkStats {
  name : string;
  requestCount : nat;
  totalDuration : Q;
  totalTokensIn : Q;
  totalTokensOut : Q;
  totalCost : Q
}.

End View.

(** [v || "unknown"] *)
Definition or_unknown (v : option string) : string :=
  match truthy_str v with
  | Some s => s
  | None => "unknown"%string
  end.

(** A computation that does not touch [result] or the console, run for its
    outcome. *)
Definition outcome {A} (c : M A) : Error + A := (c (mkEnv initial [])).1.

(** [msg.say === "api_req_started" && msg.text] *)
Definition is_api_request (msg : ClineMessage) : bool :=
  bool_decide (say msg = Some "api_req_started"%string)
  && match text_truthy (text msg) with Some _ => true | None => false end.

(** The callback of [apiRequests.map]: the extracted request, or [null]
    ([None]) when parsing or reading the first member throws. Reading a
    member of the parsed value behaves as destructuring does: a
    [TypeError] on [null], undefined on a value without the member. *)
Definition extract (msg : ClineMessage) : option View.PerformanceData :=
  let source :=                      (* msg.text || "{}" *)
    match text_truthy (text msg) with
    | Some t => t
    | None => Encodes (JObj no_members)
    end in
  match outcome (try_catch
                   (data <- JSON_parse source ;;
                    p <- destructure data ;;
                    ret (Some (View.mkData (ts msg)
                                 (or0 (duration p))
                                 (or0 (tokensIn p))
                                 (or0 (tokensOut p))
                                 (or_unknown (provider p))
                                 (or_unknown (modelId p))
                                 (or0 (cost p)))))
                   (fun _ => ret None)) with
  | inr item => item
  | inl _ => None
  end.

(** [extractedData]: map, then drop the nulls. *)
Definition extractedData (clineMessages : list ClineMessage)
  : list View.PerformanceData :=
  omap extract (List.filter is_api_request clineMessages).

(** The object a group starts from. *)
Definition fresh_stats (k : string) : View.Stats :=
  View.mkStats k 0 0 0 0 0.

(** The five [+=] on the object of a group. *)
Definition add_to_stats (item : View.PerformanceData) (s : View.Stats)
  : View.Stats :=
  View.mkStats (View.name s)
    (View.requestCount s + 1)
    (View.totalDuration s + or0 (Some (View.duration item)))
    (View.totalTokensIn s + or0 (Some (View.tokensIn item)))
    (View.totalTokensOut s + or0 (Some (View.tokensOut item)))
    (View.totalCost s + or0 (Some (View.cost item))).

(** The callback of [extractedData.reduce], for the grouping member [key]
    ([provider] or [modelId]). [acc] starts as [{}]: under a key that is
    the name of a member of [Object.prototype] and not yet an own property,
    the test [!acc[key]] finds that member, no group is created, and the
    five [+=] land on the member, which is no part of [acc]. *)
Definition group_step (key : View.PerformanceData -> string)
    (acc : gmap string View.Stats) (item : View.PerformanceData)
  : gmap string View.Stats :=
  match truthy_str (Some (key item)) with
  | Some k =>
      let acc' :=
        match acc !! k with
        | Some _ => acc
        | None => if inherited_name k then acc else <[k := fresh_stats k]> acc
        end in
      alter (add_to_stats item) k acc'
  | None => acc
  end.

Definition providerStats (clineMessages : list ClineMessage)
  : gmap string View.Stats :=
  fold_left (group_step View.provider) (extractedData clineMessages) ∅.

Definition modelStats (clineMessages : list ClineMessage)
  : gmap string View.Stats :=
  fold_left (group_step View.modelId) (extractedData clineMessages) ∅.




(** ** [PerformanceChart]: the bars of the request history

    The component receives the extracted requests and draws one [rect] per
    request. The model keeps the numbers the component computes (position
    and size of each bar, whether it gets a label, the widths) and the
    request each bar stands for; markup, colours and the formatting of
    dates are left out. Positions that are computed from the index and
    integer constants only are integers. *)

Module Chart.

(** One [rect], with the request shown in its [title]. *)
Record Bar : Type := mkBar {
  item : View.PerformanceData;
  x : Z;
  y : Q;
  width : Z;
  height : Q;
  labelled : bool
}.

End Chart.

(** [Math.max(a, b)] *)
Definition js_max (a b : Q) : Q := if Qle_bool a b then b else a.

(** [Math.max(...xs, 1)]: the largest of the arguments. *)
Definition Math_max_1 (xs : list Q) : Q := fold_right js_max 1%Q xs.

(** [[...data].sort((a, b) => a.timestamp - b.timestamp)]. With this
    comparator [sort] returns the requests in non-decreasing order of
    timestamp, requests with equal timestamps in their original order; it
    is computed here by insertion. *)
Fixpoint insert_by_timestamp (a : View.PerformanceData)
    (l : list View.PerformanceData) : list View.PerformanceData :=
  match l with
  | [] => [a]
  | b :: l' =>
      if (View.timestamp a <=? View.timestamp b)%Z then a :: l
      else b :: insert_by_timestamp a l'
  end.

Definition sort_by_timestamp (data : list View.PerformanceData)
  : list View.PerformanceData :=
  fold_right insert_by_timestamp [] data.

(** The order the bars are drawn in. *)
Definition by_timestamp (a b : View.PerformanceData) : Prop :=
  (View.timestamp a <= View.timestamp b)%Z.

Definition chartHeight : Q := 200.
Definition barWidth : Z := 20.
Definition gap : Z := 10.

Definition chartWidth (data : list View.PerformanceData) : Z :=
  (barWidth + gap) * Z.of_nat (length (sort_by_timestamp data)).

(** The [width] attribute of the [svg]. *)
Definition svgWidth (data : list View.PerformanceData) : Z :=
  Z.max (chartWidth data) 300.

(** The bars, in drawing order. *)
Definition bars (data : list View.PerformanceData) : list Chart.Bar :=
  let sortedData := sort_by_timestamp data in
  let maxDuration := Math_max_1 (map View.duration sortedData) in
  imap (fun index item =>
          let barHeight := (View.duration item / maxDuration * chartHeight)%Q in
          let x := (Z.of_nat index * (barWidth + gap) + 50)%Z in
          let y := (chartHeight - barHeight + 10)%Q in
          Chart.mkBar item x y barWidth barHeight (index mod 5 =? 0)%nat)
       sortedData.

(** ** [DeepSeekHandler]: status check and error messages

    Of the handler, the fields its own methods read and write are kept.
    The clock, the answer of the status page and the outcome of the parent
    class's [completePrompt] come from outside and are arguments. A method
    is run from start to end on its own: what happens when two calls
    interleave at an [await] is not modelled. Thrown errors and the
    documents of the status page are covered as far as their members are
    absent or strings; the table of error messages is a list of its own
    keys, read through [Object.prototype]. *)

Module DeepSeek.

Record ApiStatus : Type := mkStatus {
  operational : bool;
  message : option string
}.

Record Handler : Type := mkHandler {
  apiStatus : ApiStatus;
  lastStatusCheck : Z
}.

(** What [axios.get(DEEPSEEK_STATUS_URL)] leads to: the request fails; or
    the document has no [status] member, so that reading
    [status.status.indicator] throws; or it has one, with these
    [indicator] and [description]. *)
Inductive StatusResponse : Type :=
| RequestFails
| NoStatus
| Status (indicator description : option string).

(** What a method does besides changing the handler. *)
Inductive Event : Type :=
| Requested          (* axios.get was called *)
| ConsoleError.      (* console.error was called *)

(** A thrown value, as far as [formatDeepSeekError] reads it:
    [error.message], [error.response?.data?.error?.code] and
    [error.response?.data?.error?.type]. *)
Record ApiError : Type := mkError {
  error_message : option string;
  error_code : option string;
  error_type : option string
}.

End DeepSeek.

(** [DEEPSEEK_ERROR_CODES] *)
Definition DEEPSEEK_ERROR_CODES : list (string * string) :=
  [("invalid_api_key", "Invalid API key provided");
   ("insufficient_quota", "Insufficient quota to complete the request");
   ("rate_limit_exceeded", "Rate limit exceeded, please try again later");
   ("model_not_found", "The requested model was not found");
   ("context_length_exceeded", "Input exceeds maximum context length");
   ("invalid_request", "Invalid request parameters");
   ("internal_server_error", "Internal server error");
   ("service_unavailable", "Service temporarily unavailable")]%string.

(** The text the table has under [errorCode] as a key of its own. *)
Fixpoint own_code (table : list (string * string)) (errorCode : string)
  : option string :=
  match table with
  | [] => None
  | (c, text) :: table' =>
      if String.eqb c errorCode then Some text else own_code table' errorCode
  end.

(** [DEEPSEEK_ERROR_CODES[errorCode]], as the text it puts in the message:
    the table is an object literal, so under the name of a member of
    [Object.prototype] the read gives that member, which the template
    literal turns into its text. *)
Definition lookup_code (table : list (string * string)) (errorCode : string)
  : option string :=
  match own_code table errorCode with
  | Some text => Some text
  | None => member_text errorCode
  end.

Definition statusCheckInterval : Z := 5 * 60 * 1000.

(** The handler as its field initialisers leave it. *)
Definition new_handler : DeepSeek.Handler :=
  DeepSeek.mkHandler (DeepSeek.mkStatus true None) 0.

(** [checkApiStatus()], called when the clock shows [now] and the status
    page would answer [response]. *)
Definition checkApiStatus (now : Z) (response : DeepSeek.StatusResponse)
    (h : DeepSeek.Handler) : DeepSeek.Handler * list DeepSeek.Event :=
  if (now - DeepSeek.lastStatusCheck h <? statusCheckInterval)%Z then (h, [])
  else
    match response with
    | DeepSeek.Status indicator description =>
        (DeepSeek.mkHandler
           (DeepSeek.mkStatus
              (bool_decide (indicator = Some "none"%string)) description)
           now,
         [DeepSeek.Requested])
    | DeepSeek.RequestFails | DeepSeek.NoStatus =>
        (DeepSeek.mkHandler (DeepSeek.mkStatus true None)
           (DeepSeek.lastStatusCheck h),
         [DeepSeek.Requested; DeepSeek.ConsoleError])
    end.

(** [v || fallback] for a string-or-undefined [v]. *)
Definition or_string (v : option string) (fallback : string) : string :=
  match truthy_str v with
  | Some s => s
  | None => fallback
  end.

(** [formatDeepSeekError(error)]; [None] is a falsy thrown value. *)
Definition formatDeepSeekError (h : DeepSeek.Handler)
    (error : option DeepSeek.ApiError) : string :=
  match error with
  | None => "Unknown error occurred"
  | Some error =>
      let errorCode :=
        match truthy_str (DeepSeek.error_code error) with
        | Some c => c
        | None =>
            match truthy_str (DeepSeek.error_type error) with
            | Some t => t
            | None => ""
            end
        end in
      let errorMessage :=
        match truthy_str (Some errorCode) with
        | Some c =>
            match lookup_code DEEPSEEK_ERROR_CODES c with
            | Some text =>
                if negb (DeepSeek.operational (DeepSeek.apiStatus h))
                   && (String.eqb c "service_unavailable"
                       || String.eqb c "internal_server_error")
                then text ++ " (DeepSeek API Status: "
                     ++ or_string (DeepSeek.message (DeepSeek.apiStatus h))
                          "Issues reported"
                     ++ ")"
                else text
            | None => or_string (DeepSeek.error_message error) "Unknown error"
            end
        | None => or_string (DeepSeek.error_message error) "Unknown error"
        end in
      "DeepSeek API Error: " ++ errorMessage
  end%string.

(** The warning [completePrompt] puts in front of its result. *)
Definition statusWarning (h : DeepSeek.Handler) : string :=
  if negb (DeepSeek.operational (DeepSeek.apiStatus h))
  then ("⚠️ DeepSeek API may be experiencing issues: "
        ++ or_string (DeepSeek.message (DeepSeek.apiStatus h))
             "Unknown status issue"
        ++ ". ")%string
  else ""%string.

(** [completePrompt(prompt)]: [parent] is [super.completePrompt], which
    returns a string ([inr]) or throws ([inl]); the result is the string
    returned ([inr]) or the message of the [Error] thrown ([inl]). *)
Definition completePrompt (now : Z) (response : DeepSeek.StatusResponse)
    (parent : string -> option DeepSeek.ApiError + string) (prompt : string)
    (h : DeepSeek.Handler)
  : DeepSeek.Handler * list DeepSeek.Event * (string + string) :=
  let '(h', events) := checkApiStatus now response h in
  let warning := statusWarning h' in
  match parent prompt with
  | inr result => (h', events, inr (warning ++ result)%string)
  | inl error =>
      (h', events, inl (warning ++ formatDeepSeekError h' error)%string)
  end.

(** The code [formatDeepSeekError] goes by: [code] when it is a non-empty
    string, else [type], else the empty string. *)
Definition effective_code (error : DeepSeek.ApiError) : string :=
  or_string (DeepSeek.error_code error)
    (or_string (DeepSeek.error_type error) "").

(** The two codes whose message mentions the status of the service. *)
Definition status_related (c : string) : bool :=
  String.eqb c "service_unavailable" || String.eqb c "internal_server_error".

(** The outcome is a throw. *)
Definition throws {A B} (o : A + B) : bool :=
  match o with
  | inl _ => true
  | inr _ => false
  end.

(** ** Requests that name a member of [Object.prototype] *)

(** [text: '{"duration":5,"provider":"constructor"}'] *)
Definition constructor_request : ClineMessage :=
  mkMessage 1 TypeSay (Some "api_req_started"%string)
    (Some (Encodes (JObj (mkPayload None None None None None None None
                            (Some 5%Q) (Some "constructor"%string) None)))).

(** [text: '{"duration":5,"provider":"__proto__"}'] *)
Definition proto_request : ClineMessage :=
  mkMessage 1 TypeSay (Some "api_req_started"%string)
    (Some (Encodes (JObj (mkPayload None None None None None None None
                            (Some 5%Q) (Some "__proto__"%string) None)))).

(** ** Running the model *)

Lemma getTotalTokensFromMessage_run (m : ClineMessage) (env : Env) :
  getTotalTokensFromMessage m env = (inr (combinedTokens m), env).
Proof.
  unfold getTotalTokensFromMessage, combinedTokens.
  destruct (text m) as [[| raw | []] |]; reflexivity.
Qed.

Lemma has_tokens_run (o : Ref) (env : Env) :
  has_tokens o env = (inr (qualifies o.2), env).
Proof.
  unfold has_tokens, qualifies.
  destruct (is_api_req_started o.2); [|reflexivity].
  unfold bind. rewrite getTotalTokensFromMessage_run. reflexivity.
Qed.

Lemma find_run (l : list Ref) (env : Env) :
  find_ has_tokens l env = (inr (find (fun o => qualifies o.2) l), env).
Proof.
  induction l as [|o l IH]; [reflexivity|].
  simpl. unfold bind. rewrite has_tokens_run.
  destruct (qualifies o.2); [reflexivity | apply IH].
Qed.

Lemma env_eta (env : Env) : mkEnv (result env) (console env) = env.
Proof. destruct env; reflexivity. Qed.

Ltac run_statements :=
  cbv [bind ret update when when_number result console
       totalTokensIn totalTokensOut totalCacheWrites totalCacheReads totalCost
       contextTokens totalDuration requestCount averageDuration
       requestsByProvider requestsByModel durationByProvider durationByModel
       performanceHistory
       set_totalTokensIn set_totalTokensOut set_totalCacheWrites
       set_totalCacheReads set_totalCost set_contextTokens set_totalDuration
       set_requestCount set_averageDuration set_requestsByProvider
       set_requestsByModel set_durationByProvider set_durationByModel
       set_performanceHistory add_number add_cache].

Lemma accumulate_run (lastApiReq : option Ref) (o : Ref) (p : Payload)
    (env : Env) :
  accumulate lastApiReq o p env
  = (inr tt,
     mkEnv (let r' := absorb (ts o.2, p) (result env) in
            if same_object o lastApiReq
            then set_contextTokens (combinedTokens o.2) r' else r')
           (console env)).
Proof.
  destruct p as [ti to cw cr co st en du pr mo], env as [r c].
  unfold accumulate, absorb, entry_of, requestDuration, when_string, tally,
    charge.
  cbn [tokensIn tokensOut cacheWrites cacheReads cost startTime endTime
       duration provider modelId fst snd].
  set (d := match du with
            | Some d => d
            | None => match st, en with
                      | Some s, Some e => (e - s)%Q
                      | _, _ => 0%Q
                      end
            end).
  clearbody d.
  destruct (same_object o lastApiReq), (gt0 d), (truthy_str pr),
    (truthy_str mo), ti, to, cw, cr, co;
    run_statements; rewrite ?getTotalTokensFromMessage_run; reflexivity.
Qed.

Lemma on_message_run (lastApiReq : option Ref) (o : Ref) (env : Env) :
  on_message lastApiReq o env
  = (inr tt, mkEnv (step lastApiReq (result env) o)
                   (console env ++ logged o.2)).
Proof.
  unfold on_message, step, payload_of, logged.
  destruct (is_api_req_started o.2);
    [| rewrite app_nil_r, env_eta; reflexivity].
  destruct (text o.2) as [[| raw | v] |]; simpl;
    try (rewrite app_nil_r, env_eta; reflexivity); try reflexivity.
  destruct v; unfold try_catch, bind; simpl;
    rewrite ?accumulate_run, ?app_nil_r; reflexivity.
Qed.

Lemma forEach_run (lastApiReq : option Ref) (l : list Ref) (env : Env) :
  forEach (on_message lastApiReq) l env
  = (inr tt, mkEnv (fold_left (step lastApiReq) l (result env))
                   (console env ++ concat (map (fun o => logged o.2) l))).
Proof.
  revert env. induction l as [|o l IH]; intros env.
  - simpl. rewrite app_nil_r, env_eta. reflexivity.
  - simpl. unfold bind. rewrite on_message_run, IH. simpl.
    rewrite app_assoc. reflexivity.
Qed.

(** ** [contextTokens] is written by one message only *)

Lemma set_contextTokens_id (r : ApiMetrics) :
  set_contextTokens (contextTokens r) r = r.
Proof. destruct r; reflexivity. Qed.

Lemma absorb_all_set_contextTokens ps c r :
  absorb_all ps (set_contextTokens c r) = set_contextTokens c (absorb_all ps r).
Proof.
  revert r. induction ps as [|tp ps IH]; intros r; [reflexivity|].
  simpl. rewrite <- IH. reflexivity.
Qed.

Lemma processed_cons (m : ClineMessage) (l : list ClineMessage) :
  processed (m :: l)
  = match payload_of m with
    | Some p => (ts m, p) :: processed l
    | None => processed l
    end.
Proof. unfold processed. simpl. destruct (payload_of m); reflexivity. Qed.

Lemma processed_app (l1 l2 : list ClineMessage) :
  processed (l1 ++ l2) = processed l1 ++ processed l2.
Proof. apply omap_app. Qed.

Lemma fold_step_shape (lastApiReq : option Ref) (l : list Ref) (r : ApiMetrics) :
  exists c : Q,
    fold_left (step lastApiReq) l r
    = set_contextTokens c (absorb_all (processed (map snd l)) r).
Proof.
  revert r. induction l as [|o l IH]; intros r.
  - exists (contextTokens r). simpl. symmetry. apply set_contextTokens_id.
  - cbn [fold_left map]. destruct (IH (step lastApiReq r o)) as [c Hc].
    exists c. rewrite Hc, processed_cons. unfold step.
    destruct (payload_of o.2) as [p|]; [|reflexivity].
    cbn [absorb_all fold_left].
    destruct (same_object o lastApiReq); [|reflexivity].
    fold (absorb_all (processed (map snd l)) (absorb (ts o.2, p) r)).
    fold (absorb_all (processed (map snd l))
            (set_contextTokens (combinedTokens o.2) (absorb (ts o.2, p) r))).
    rewrite absorb_all_set_contextTokens. reflexivity.
Qed.

Lemma contextTokens_absorb tp r : contextTokens (absorb tp r) = contextTokens r.
Proof. reflexivity. Qed.

Lemma fold_step_context_none (l : list Ref) (r : ApiMetrics) :
  contextTokens (fold_left (step None) l r) = contextTokens r.
Proof.
  revert r. induction l as [|o l IH]; intros r; [reflexivity|].
  cbn [fold_left]. rewrite IH. unfold step.
  destruct (payload_of o.2); reflexivity.
Qed.

Lemma fold_step_context_some (i : nat) (m : ClineMessage) (l : list Ref)
    (r : ApiMetrics) :
  (i, m) ∈ l ->
  (forall m', (i, m') ∈ l -> m' = m) ->
  is_Some (payload_of m) ->
  contextTokens (fold_left (step (Some (i, m))) l r) = combinedTokens m.
Proof.
  intros Hin Huniq [p Hp]. revert Hin Huniq.
  induction l as [|[j m'] l IH] using rev_ind; intros Hin Huniq.
  - inversion Hin.
  - rewrite fold_left_app. cbn [fold_left]. unfold step at 1.
    cbn [fst snd same_object].
    destruct (Nat.eqb_spec j i) as [->|Hne].
    + assert (m' = m) as ->.
      { apply Huniq. apply elem_of_app. right. apply list_elem_of_singleton.
        reflexivity. }
      rewrite Hp. reflexivity.
    + assert (Hl : (i, m) ∈ l).
      { apply elem_of_app in Hin as [H|H]; [exact H|].
        apply list_elem_of_singleton in H. congruence. }
      destruct (payload_of m'); cbn [contextTokens absorb];
        apply IH; try exact Hl;
        intros m0 H0; apply Huniq, elem_of_app; left; exact H0.
Qed.

(** ** Looking for the last qualifying message *)

Lemma find_snd {A B} (P : B -> bool) (l : list (A * B)) :
  snd <$> find (fun o => P o.2) l = find P (map snd l).
Proof.
  induction l as [|o l IH]; [reflexivity|].
  simpl. destruct (P o.2); [reflexivity | exact IH].
Qed.

Lemma snd_objects (messages : list ClineMessage) :
  map snd (objects messages) = messages.
Proof.
  unfold objects.
  change (map snd (imap pair messages)) with (snd <$> imap pair messages).
  rewrite fmap_imap.
  rewrite (imap_ext _ (const id)) by reflexivity.
  rewrite imap_const. apply list_fmap_id.
Qed.

Lemma find_objects (messages : list ClineMessage) :
  snd <$> find (fun o => qualifies o.2) (rev (objects messages))
  = find qualifies (rev messages).
Proof. rewrite find_snd, map_rev, snd_objects. reflexivity. Qed.

Lemma qualifies_payload (m : ClineMessage) :
  qualifies m = true -> is_Some (payload_of m).
Proof.
  unfold qualifies, payload_of, combinedTokens.
  destruct (is_api_req_started m); [|discriminate].
  destruct (text m) as [[| raw | []] |]; simpl; try discriminate; eauto.
Qed.

Lemma find_app_first {A} (P : A -> bool) (l1 l2 : list A) :
  find P (l1 ++ l2)
  = match find P l1 with Some x => Some x | None => find P l2 end.
Proof.
  induction l1 as [|x l1 IH]; [reflexivity|].
  simpl. destruct (P x); [reflexivity | exact IH].
Qed.

Lemma find_rev_none {A} (P : A -> bool) (l : list A) :
  find P (rev l) = None <-> forall x, x ∈ l -> P x = false.
Proof.
  split.
  - intros H x Hx. apply (find_none _ _ H). apply in_rev.
    rewrite rev_involutive. apply list_elem_of_In. exact Hx.
  - intros H. destruct (find P (rev l)) as [x|] eqn:E; [|reflexivity].
    apply find_some in E as [Hin Hx]. apply in_rev, list_elem_of_In in Hin.
    rewrite (H x Hin) in Hx. discriminate.
Qed.


Lemma logged_objects (messages : list ClineMessage) :
  concat (map (fun o : Ref => logged o.2) (objects messages))
  = concat (map logged messages).
Proof.
  rewrite <- (snd_objects messages) at 2. rewrite map_map. reflexivity.
Qed.

(** ** The function in closed form *)

Theorem getApiMetrics_closed (messages : list ClineMessage) (log : list Error) :
  getApiMetrics messages log
  = (inr (finish (set_contextTokens (context_of messages)
                    (absorb_all (processed messages) initial))),
     log ++ concat (map logged messages)).
Proof.
  unfold getApiMetrics, getApiMetrics_body, bind.
  rewrite find_run, forEach_run. cbn [result console read when].
  set (last := find (fun o => qualifies o.2) (rev (objects messages))).
  set (r := fold_left (step last) (objects messages) initial).
  assert (Hr : r = set_contextTokens (context_of messages)
                     (absorb_all (processed messages) initial)).
  { destruct (fold_step_shape last (objects messages) initial) as [c Hc].
    fold r in Hc. rewrite snd_objects in Hc.
    assert (Hctx : contextTokens r = context_of messages).
    { subst r. unfold context_of. rewrite <- find_objects. fold last.
      destruct last as [[i m]|] eqn:E; cbn [fmap option_fmap option_map snd].
      - apply find_some in E as [Hin Hq]. cbn [snd] in Hq.
        apply in_rev, list_elem_of_In in Hin.
        assert (Hlook : forall m', (i, m') ∈ objects messages ->
                                   messages !! i = Some m').
        { intros m' H. unfold objects in H.
          apply elem_of_lookup_imap in H as (j & y & Heq & Hj).
          inversion Heq; subst. exact Hj. }
        apply fold_step_context_some.
        + exact Hin.
        + intros m' H. apply Hlook in H. apply Hlook in Hin. congruence.
        + apply qualifies_payload, Hq.
      - apply fold_step_context_none. }
    rewrite Hc in Hctx. cbn [contextTokens set_contextTokens] in Hctx.
    rewrite Hc, Hctx. reflexivity. }
  rewrite Hr, logged_objects. unfold finish, id.
  destruct ((0 <? requestCount _)%nat && gt0 (totalDuration _)); reflexivity.
Qed.

(** ** Facts about numbers *)

Lemma gt0_spec (x : Q) : gt0 x = true <-> (0 < x)%Q.
Proof.
  unfold gt0, Qlt. simpl. rewrite Z.mul_1_r. apply Z.ltb_lt.
Qed.

Lemma gt0_false (x : Q) : gt0 x = false <-> (x <= 0)%Q.
Proof.
  unfold gt0, Qle. simpl. rewrite Z.mul_1_r. apply Z.ltb_ge.
Qed.

Lemma or0_nonneg (v : option Q) :
  (forall x, v = Some x -> (0 < x)%Q) -> (0 <= or0 v)%Q.
Proof.
  intros H. destruct v as [x|]; simpl; [|apply Qle_refl].
  destruct (truthy x); [|apply Qle_refl].
  apply Qlt_le_weak, H. reflexivity.
Qed.

Lemma Qplus_pos (a d : Q) : (0 <= a)%Q -> (0 < d)%Q -> (0 < a + d)%Q.
Proof.
  intros Ha Hd. apply Qlt_le_trans with (y := (0 + d)%Q).
  - rewrite Qplus_0_l. exact Hd.
  - apply Qplus_le_l. exact Ha.
Qed.

(** ** Each field of the scan, read off the processed payloads *)

Section Fields.
Variable ps : list (Z * Payload).

Lemma requestCount_absorb_all r :
  requestCount (absorb_all ps r) = requestCount r + length ps.
Proof.
  revert r. induction ps as [|tp l IH]; intros r; simpl; [lia|].
  rewrite IH. simpl. lia.
Qed.

Lemma averageDuration_absorb_all r :
  averageDuration (absorb_all ps r) = averageDuration r.
Proof.
  revert r. induction ps as [|tp l IH]; intros r; simpl; [reflexivity|].
  rewrite IH. reflexivity.
Qed.

Lemma totalDuration_absorb_all r :
  totalDuration (absorb_all ps r)
  = fold_left Qplus (map (fun tp => requestDuration tp.2)
                       (List.filter positive ps)) (totalDuration r).
Proof.
  revert r. induction ps as [|tp l IH]; intros r; simpl; [reflexivity|].
  rewrite IH. unfold positive at 2. simpl.
  destruct (gt0 (requestDuration tp.2)); reflexivity.
Qed.

Lemma performanceHistory_absorb_all r :
  performanceHistory (absorb_all ps r)
  = performanceHistory r ++ map entry_of (List.filter positive ps).
Proof.
  revert r. induction ps as [|tp l IH]; intros r; simpl.
  - rewrite app_nil_r. reflexivity.
  - rewrite IH. unfold positive at 2. simpl.
    destruct (gt0 (requestDuration tp.2)); simpl; [|reflexivity].
    rewrite <- app_assoc. reflexivity.
Qed.

Lemma durationByProvider_absorb_all r :
  durationByProvider (absorb_all ps r)
  = fold_left (fun m tp => charge (provider tp.2) (requestDuration tp.2) m)
      (List.filter positive ps) (durationByProvider r).
Proof.
  revert r. induction ps as [|tp l IH]; intros r; simpl; [reflexivity|].
  rewrite IH. unfold positive at 2. simpl.
  destruct (gt0 (requestDuration tp.2)); reflexivity.
Qed.

Lemma durationByModel_absorb_all r :
  durationByModel (absorb_all ps r)
  = fold_left (fun m tp => charge (modelId tp.2) (requestDuration tp.2) m)
      (List.filter positive ps) (durationByModel r).
Proof.
  revert r. induction ps as [|tp l IH]; intros r; simpl; [reflexivity|].
  rewrite IH. unfold positive at 2. simpl.
  destruct (gt0 (requestDuration tp.2)); reflexivity.
Qed.

Lemma totalCacheWrites_absorb_all r :
  totalCacheWrites (absorb_all ps r)
  = fold_left add_cache (map (fun tp => cacheWrites tp.2) ps)
      (totalCacheWrites r).
Proof.
  revert r. induction ps as [|tp l IH]; intros r; simpl; [reflexivity|].
  rewrite IH. reflexivity.
Qed.

Lemma totalCacheReads_absorb_all r :
  totalCacheReads (absorb_all ps r)
  = fold_left add_cache (map (fun tp => cacheReads tp.2) ps)
      (totalCacheReads r).
Proof.
  revert r. induction ps as [|tp l IH]; intros r; simpl; [reflexivity|].
  rewrite IH. reflexivity.
Qed.
End Fields.

(** The projections that [finish] and the write of [contextTokens] leave
    alone. *)
Lemma finish_fields (r : ApiMetrics) :
  totalTokensIn (finish r) = totalTokensIn r
  /\ totalTokensOut (finish r) = totalTokensOut r
  /\ totalCacheWrites (finish r) = totalCacheWrites r
  /\ totalCacheReads (finish r) = totalCacheReads r
  /\ totalCost (finish r) = totalCost r
  /\ contextTokens (finish r) = contextTokens r
  /\ totalDuration (finish r) = totalDuration r
  /\ requestCount (finish r) = requestCount r
  /\ requestsByProvider (finish r) = requestsByProvider r
  /\ requestsByModel (finish r) = requestsByModel r
  /\ durationByProvider (finish r) = durationByProvider r
  /\ durationByModel (finish r) = durationByModel r
  /\ performanceHistory (finish r) = performanceHistory r.
Proof.
  unfold finish.
  destruct ((0 <? requestCount r)%nat && gt0 (totalDuration r));
    repeat split; reflexivity.
Qed.

(** ** Facts used by several properties *)

Lemma length_processed (messages : list ClineMessage) :
  length (processed messages)
  = length (List.filter
              (fun m => is_api_req_started m && parses_to_non_null m) messages).
Proof.
  induction messages as [|m l IH]; [reflexivity|].
  rewrite processed_cons. cbn [List.filter].
  unfold payload_of, parses_to_non_null.
  destruct (is_api_req_started m); [|exact IH].
  destruct (text m) as [[| raw | []] |]; simpl; rewrite ?IH; reflexivity.
Qed.

Lemma fold_add_cache_Some (vs : list (option Q)) (a : Q) :
  fold_left add_cache vs (Some a) = Some (fold_left Qplus (omap id vs) a).
Proof.
  revert a. induction vs as [|[x|] vs IH]; intros a; simpl;
    [reflexivity | apply IH | apply IH].
Qed.

Lemma fold_add_cache_None (vs : list (option Q)) :
  fold_left add_cache vs None
  = match omap id vs with
    | [] => None
    | ws => Some (sumQ ws)
    end.
Proof.
  induction vs as [|[x|] vs IH]; simpl; [reflexivity | | exact IH].
  rewrite fold_add_cache_Some. reflexivity.
Qed.

Lemma omap_id_map {A} (f : A -> option Q) (l : list A) :
  omap id (map f l) = omap f l.
Proof.
  induction l as [|x l IH]; [reflexivity|].
  simpl. destruct (f x); simpl; [f_equal|]; exact IH.
Qed.

Lemma omap_nil_iff {A B} (f : A -> option B) (l : list A) :
  omap f l = [] <-> forall x, x ∈ l -> f x = None.
Proof.
  induction l as [|x l IH]; simpl.
  - split; [intros _ y Hy; inversion Hy | reflexivity].
  - destruct (f x) eqn:E.
    + split; [discriminate|]. intros H.
      specialize (H x (list_elem_of_here x l)). congruence.
    + rewrite IH. split.
      * intros H y Hy. apply elem_of_cons in Hy as [->|Hy]; auto.
      * intros H y Hy. apply H. apply elem_of_cons. right. exact Hy.
Qed.

Lemma tied_empty : tied ∅ ∅.
Proof.
  split; [rewrite !dom_empty_L; reflexivity|].
  split; intros k x H; rewrite lookup_empty in H; discriminate.
Qed.

Lemma tied_step (k : option string) (d : Q) cnt dur :
  (0 < d)%Q -> tied cnt dur -> tied (own_tally k cnt) (own_charge k d dur).
Proof.
  intros Hd (Hdom & Hcnt & Hdur). unfold own_tally, own_charge.
  destruct (truthy_str k) as [s|]; [|repeat split; assumption].
  split; [rewrite !dom_insert_L, Hdom; reflexivity|]. split.
  - intros k' n. rewrite lookup_insert. case_decide.
    + intros [= <-]. lia.
    + apply Hcnt.
  - intros k' x. rewrite lookup_insert. case_decide.
    + intros [= <-]. apply Qplus_pos; [|exact Hd].
      apply or0_nonneg. apply Hdur.
    + apply Hdur.
Qed.

Lemma tied_folds (sel : Payload -> option string) (l : list (Z * Payload))
    (cnt : gmap string nat) (dur : gmap string Q) :
  Forall (fun tp => gt0 (requestDuration tp.2) = true) l ->
  tied cnt dur ->
  tied (fold_left (fun m tp => own_tally (sel tp.2) m) l cnt)
       (fold_left (fun m tp => own_charge (sel tp.2) (requestDuration tp.2) m)
          l dur).
Proof.
  intros Hpos. revert cnt dur.
  induction Hpos as [|tp l Htp Hl IH]; intros cnt dur Ht; [exact Ht|].
  cbn [fold_left]. apply IH, tied_step; [apply gt0_spec, Htp | exact Ht].
Qed.

(** A tally and the matching duration are written under the same keys. *)
Lemma dom_tally_charge (k : option string) (d : Q)
    (cnt dur : gmap string Js.value) :
  dom cnt = dom dur -> dom (tally k cnt) = dom (charge k d dur).
Proof.
  intros Hdom. unfold tally, charge, Js.write.
  destruct (truthy_str k) as [s|]; [|exact Hdom].
  destruct (String.eqb s "__proto__"); [exact Hdom|].
  rewrite !dom_insert_L, Hdom. reflexivity.
Qed.

Lemma dom_folds (sel : Payload -> option string) (l : list (Z * Payload))
    (cnt dur : gmap string Js.value) :
  dom cnt = dom dur ->
  dom (fold_left (fun m tp => tally (sel tp.2) m) l cnt)
  = dom (fold_left (fun m tp => charge (sel tp.2) (requestDuration tp.2) m)
           l dur).
Proof.
  revert cnt dur. induction l as [|tp l IH]; intros cnt dur Hdom;
    [exact Hdom|].
  cbn [fold_left]. apply IH, dom_tally_charge, Hdom.
Qed.

Lemma processed_middle (l1 l2 : list ClineMessage) (m : ClineMessage) :
  processed (l1 ++ m :: l2)
  = processed l1
    ++ match payload_of m with Some p => [(ts m, p)] | None => [] end
    ++ processed l2.
Proof.
  rewrite processed_app, processed_cons.
  destruct (payload_of m); reflexivity.
Qed.

Lemma context_of_skip (l1 l2 : list ClineMessage) (m : ClineMessage) :
  qualifies m = false -> context_of (l1 ++ m :: l2) = context_of (l1 ++ l2).
Proof.
  intros Hq. unfold context_of.
  rewrite !rev_app_distr. cbn [rev]. rewrite <- app_assoc.
  rewrite !find_app_first. cbn [app find]. rewrite Hq. reflexivity.
Qed.

Lemma timed_middle (l1 l2 : list ClineMessage) (m : ClineMessage) :
  (forall p, payload_of m = Some p -> gt0 (requestDuration p) = false) ->
  timed (l1 ++ m :: l2) = timed (l1 ++ l2).
Proof.
  intros H. unfold timed. rewrite processed_middle, processed_app.
  rewrite !List.filter_app. f_equal.
  destruct (payload_of m) as [p|]; [|reflexivity].
  cbn [List.filter]. unfold positive. cbn [snd].
  rewrite (H p eq_refl). reflexivity.
Qed.

Lemma absorb_all_set_requestCount ps n r :
  absorb_all ps (set_requestCount n r)
  = set_requestCount (n + length ps) (absorb_all ps r).
Proof.
  revert n r. induction ps as [|tp ps IH]; intros n r.
  - simpl. rewrite Nat.add_0_r. reflexivity.
  - cbn [absorb_all fold_left length].
    change (absorb tp (set_requestCount n r))
      with (set_requestCount (n + 1) (absorb tp r)).
    fold (absorb_all ps (set_requestCount (n + 1) (absorb tp r))).
    rewrite IH. f_equal. lia.
Qed.

Lemma no_text_no_tokens (m : ClineMessage) :
  not_a_json_object m = true -> qualifies m = false.
Proof.
  unfold not_a_json_object, qualifies, combinedTokens.
  destruct (text m) as [[| raw | []] |]; try discriminate;
    intros _; apply andb_false_r.
Qed.

(** ** Properties of the aggregation *)

Ltac closed_form messages log :=
  exists (finish (set_contextTokens (context_of messages)
                    (absorb_all (processed messages) initial))),
         (log ++ concat (map logged messages));
  split; [apply getApiMetrics_closed|].



(** C2, as the code has it. [requestCount] is the number of messages tagged
    as an API-request start whose text parses to a JSON value other than
    [null] (an object or not). *)
Theorem requestCount_spec (messages : list ClineMessage) (log : list Error) :
  exists r log',
    getApiMetrics messages log = (inr r, log')
    /\ requestCount r
       = length (List.filter
                   (fun m => is_api_req_started m && parses_to_non_null m)
                   messages).
Proof.
  closed_form messages log.
  destruct (finish_fields (set_contextTokens (context_of messages)
              (absorb_all (processed messages) initial)))
    as (_ & _ & _ & _ & _ & _ & _ & -> & _).
  cbn [requestCount set_contextTokens].
  rewrite requestCount_absorb_all, length_processed. reflexivity.
Qed.

(** C2 fails on a payload that is the JSON text [null]: the text parses,
    destructuring [null] throws, and the request is not counted. *)
Lemma requestCount_null_not_counted :
  exists r log',
    getApiMetrics [null_payload] [] = (inr r, log')
    /\ requestCount r = 0
    /\ length (List.filter
                 (fun m => is_api_req_started m && json_parsable m)
                 [null_payload]) = 1.
Proof.
  exists initial, [TypeError]. repeat split; reflexivity.
Qed.

(** C3. [totalDuration] is the sum of the derived durations of the
    processed events whose derived duration is above zero, and
    [performanceHistory], [durationByProvider] and [durationByModel] are
    built from those events alone, while [requestCount] counts every
    processed event.  Taking out of the sequence an event whose derived
    duration is zero or negative changes none of the four and lowers
    [requestCount] by one. *)
Theorem totalDuration_spec (messages : list ClineMessage) (log : list Error) :
  exists r log',
    getApiMetrics messages log = (inr r, log')
    /\ totalDuration r
       = sumQ (map (fun tp => requestDuration tp.2) (timed messages))
    /\ performanceHistory r = map entry_of (timed messages)
    /\ durationByProvider r
       = fold_left (fun m tp => charge (provider tp.2) (requestDuration tp.2) m)
           (timed messages) ∅
    /\ durationByModel r
       = fold_left (fun m tp => charge (modelId tp.2) (requestDuration tp.2) m)
           (timed messages) ∅
    /\ requestCount r = length (processed messages)
    /\ (forall l1 m l2 p,
          messages = l1 ++ m :: l2 ->
          payload_of m = Some p ->
          (requestDuration p <= 0)%Q ->
          exists r' log'',
            getApiMetrics (l1 ++ l2) log = (inr r', log'')
            /\ totalDuration r = totalDuration r'
            /\ performanceHistory r = performanceHistory r'
            /\ durationByProvider r = durationByProvider r'
            /\ durationByModel r = durationByModel r'
            /\ requestCount r = S (requestCount r')).
Proof.
  assert (Hfields : forall ms,
    let r := finish (set_contextTokens (context_of ms)
                       (absorb_all (processed ms) initial)) in
    totalDuration r = sumQ (map (fun tp => requestDuration tp.2) (timed ms))
    /\ performanceHistory r = map entry_of (timed ms)
    /\ durationByProvider r
       = fold_left (fun m tp => charge (provider tp.2) (requestDuration tp.2) m)
           (timed ms) ∅
    /\ durationByModel r
       = fold_left (fun m tp => charge (modelId tp.2) (requestDuration tp.2) m)
           (timed ms) ∅
    /\ requestCount r = length (processed ms)).
  { intros ms r. subst r.
    destruct (finish_fields (set_contextTokens (context_of ms)
                (absorb_all (processed ms) initial)))
      as (_ & _ & _ & _ & _ & _ & -> & -> & _ & _ & -> & -> & ->).
    cbn [totalDuration performanceHistory durationByProvider durationByModel
         requestCount set_contextTokens].
    rewrite totalDuration_absorb_all, performanceHistory_absorb_all,
      durationByProvider_absorb_all, durationByModel_absorb_all,
      requestCount_absorb_all.
    repeat split; reflexivity. }
  closed_form messages log.
  destruct (Hfields messages) as (Hd & Hh & Hp & Hm & Hc).
  split; [exact Hd|]. split; [exact Hh|]. split; [exact Hp|].
  split; [exact Hm|]. split; [exact Hc|].
  intros l1 m l2 p -> Hpay Hle.
  closed_form (l1 ++ l2) log.
  destruct (Hfields (l1 ++ l2)) as (Hd' & Hh' & Hp' & Hm' & Hc').
  assert (Ht : timed (l1 ++ m :: l2) = timed (l1 ++ l2)).
  { apply timed_middle. intros p' Hp0. rewrite Hpay in Hp0.
    injection Hp0 as <-. apply gt0_false, Hle. }
  rewrite Hd, Hh, Hp, Hm, Hc, Hd', Hh', Hp', Hm', Hc', Ht.
  repeat split.
  rewrite processed_middle, processed_app, Hpay, !length_app. simpl. lia.
Qed.

Lemma totalDuration_spec_witness :
  exists r log' r' log'',
    getApiMetrics with_zero_duration [] = (inr r, log')
    /\ getApiMetrics [started 1 (Encodes (JObj (duration_only 150)))] []
       = (inr r', log'')
    /\ totalDuration r = totalDuration r'
    /\ performanceHistory r = performanceHistory r'
    /\ requestCount r = S (requestCount r').
Proof.
  destruct (totalDuration_spec with_zero_duration [])
    as (r & log' & Hrun & _ & _ & _ & _ & _ & Hdrop).
  destruct (Hdrop [started 1 (Encodes (JObj (duration_only 150)))]
              (started 2 (Encodes (JObj (duration_only 0)))) []
              (duration_only 0))
    as (r' & log'' & Hrun' & Hd & Hh & _ & _ & Hc).
  - reflexivity.
  - reflexivity.
  - unfold Qle. simpl. lia.
  - exists r, log', r', log''. repeat split; assumption.
Defined.

(** C4, as the code has it. A message whose text is absent, empty, not
    valid JSON, or the encoding of [null] is skipped: the function returns,
    and returns the record it returns without that message. A message
    tagged as an API-request start whose text encodes a number, a string, a
    boolean or an array adds one to [requestCount] (which enters
    [averageDuration]) and changes no other field: the two records are equal
    once [requestCount] and [averageDuration] are blanked. *)
Theorem unusable_text_skipped (l1 l2 : list ClineMessage) (m : ClineMessage)
    (log : list Error) :
  exists r log' r' log'',
    getApiMetrics (l1 ++ m :: l2) log = (inr r, log')
    /\ getApiMetrics (l1 ++ l2) log = (inr r', log'')
    /\ (unusable m = true -> r = r')
    /\ (is_api_req_started m = true -> encodes_plain_value m = true ->
        requestCount r = S (requestCount r')
        /\ set_averageDuration 0%Q (set_requestCount 0 r)
           = set_averageDuration 0%Q (set_requestCount 0 r')).
Proof.
  exists (finish (set_contextTokens (context_of (l1 ++ m :: l2))
                    (absorb_all (processed (l1 ++ m :: l2)) initial))),
         (log ++ concat (map logged (l1 ++ m :: l2))),
         (finish (set_contextTokens (context_of (l1 ++ l2))
                    (absorb_all (processed (l1 ++ l2)) initial))),
         (log ++ concat (map logged (l1 ++ l2))).
  split; [apply getApiMetrics_closed|].
  split; [apply getApiMetrics_closed|].
  split.
  - intros Hu.
    assert (Hpay : payload_of m = None).
    { unfold payload_of. unfold unusable in Hu.
      destruct (is_api_req_started m); [|reflexivity].
      destruct (text m) as [[| raw | []] |]; try discriminate; reflexivity. }
    assert (Hq : qualifies m = false).
    { apply no_text_no_tokens. unfold not_a_json_object.
      unfold unusable in Hu.
      destruct (text m) as [[| raw | []] |]; try discriminate; reflexivity. }
    rewrite (context_of_skip _ _ _ Hq), processed_middle, Hpay, processed_app.
    reflexivity.
  - intros Hs Hv.
    assert (Hpay : payload_of m = Some no_members).
    { unfold payload_of. rewrite Hs. unfold encodes_plain_value in Hv.
      destruct (text m) as [[| raw | []] |]; try discriminate; reflexivity. }
    assert (Hq : qualifies m = false).
    { apply no_text_no_tokens. unfold not_a_json_object.
      unfold encodes_plain_value in Hv.
      destruct (text m) as [[| raw | []] |]; try discriminate; reflexivity. }
    rewrite (context_of_skip _ _ _ Hq), processed_middle, Hpay, processed_app.
    unfold absorb_all. rewrite !fold_left_app. cbn [fold_left].
    set (R1 := fold_left _ (processed l1) initial).
    change (absorb (ts m, no_members) R1)
      with (set_requestCount (requestCount R1 + 1) R1).
    fold (absorb_all (processed l2) (set_requestCount (requestCount R1 + 1) R1)).
    fold (absorb_all (processed l2) R1).
    rewrite absorb_all_set_requestCount.
    set (R2 := absorb_all (processed l2) R1).
    assert (HR2 : requestCount R2 = requestCount R1 + length (processed l2)).
    { subst R2. apply requestCount_absorb_all. }
    split.
    + destruct (finish_fields (set_contextTokens (context_of (l1 ++ l2))
                  (set_requestCount
                     (requestCount R1 + 1 + length (processed l2)) R2)))
        as (_ & _ & _ & _ & _ & _ & _ & -> & _).
      destruct (finish_fields (set_contextTokens (context_of (l1 ++ l2)) R2))
        as (_ & _ & _ & _ & _ & _ & _ & -> & _).
      cbn [requestCount set_contextTokens set_requestCount]. lia.
    + unfold finish.
      repeat match goal with
             | |- context [if ?c then _ else _] => destruct c
             end; reflexivity.
Qed.

(** C4 fails on a payload that is the JSON text [5]: it is valid JSON and
    not an object, and the request is counted. *)
Lemma number_payload_counted :
  not_a_json_object number_payload = true
  /\ exists r log' r' log'',
       getApiMetrics [number_payload] [] = (inr r, log')
       /\ getApiMetrics [] [] = (inr r', log'')
       /\ requestCount r = 1 /\ requestCount r' = 0.
Proof.
  split; [reflexivity|].
  exists (set_requestCount 1 initial), [], initial, [].
  repeat split; reflexivity.
Qed.

Lemma unusable_text_skipped_witness :
  (exists r log' r' log'',
     getApiMetrics [duration_payload; null_payload] [] = (inr r, log')
     /\ getApiMetrics [duration_payload] [] = (inr r', log'')
     /\ r = r')
  /\ (exists r log' r' log'',
        getApiMetrics [duration_payload; number_payload] [] = (inr r, log')
        /\ getApiMetrics [duration_payload] [] = (inr r', log'')
        /\ requestCount r = S (requestCount r')).
Proof.
  split.
  - destruct (unusable_text_skipped [duration_payload] [] null_payload [])
      as (r & log' & r' & log'' & Hrun & Hrun' & Hskip & _).
    exists r, log', r', log''.
    split; [exact Hrun|]. split; [exact Hrun'|].
    apply Hskip. reflexivity.
  - destruct (unusable_text_skipped [duration_payload] [] number_payload [])
      as (r & log' & r' & log'' & Hrun & Hrun' & _ & Hplain).
    exists r, log', r', log''.
    split; [exact Hrun|]. split; [exact Hrun'|].
    apply Hplain; reflexivity.
Defined.

(** C5, as the code has it. When no message is processed the record is the
    initial one: every numeric field is 0 and the two cache totals are
    absent. The [tokensIn] and [tokensOut] of a history entry are those of
    the payload, as they are: absent when the payload omits them. *)
Theorem defaults_and_history_tokens (messages : list ClineMessage)
    (log : list Error) :
  exists r log',
    getApiMetrics messages log = (inr r, log')
    /\ (processed messages = [] -> r = initial)
    /\ Forall2 (fun e tp => Entry.tokensIn e = tokensIn tp.2
                            /\ Entry.tokensOut e = tokensOut tp.2)
         (performanceHistory r) (timed messages).
Proof.
  closed_form messages log. split.
  - intros Hnil.
    assert (Hctx : context_of messages = 0%Q).
    { unfold context_of.
      assert (H : find qualifies (rev messages) = None).
      { apply find_rev_none. intros m Hm.
        destruct (qualifies m) eqn:Hq; [|reflexivity].
        apply qualifies_payload in Hq as [p Hp]. exfalso.
        unfold processed in Hnil.
        apply (proj1 (omap_nil_iff _ _)) with (x := m) in Hnil; [|exact Hm].
        rewrite Hp in Hnil. discriminate. }
      rewrite H. reflexivity. }
    rewrite Hnil, Hctx. reflexivity.
  - destruct (finish_fields (set_contextTokens (context_of messages)
                (absorb_all (processed messages) initial)))
      as (_ & _ & _ & _ & _ & _ & _ & _ & _ & _ & _ & _ & ->).
    cbn [performanceHistory set_contextTokens].
    rewrite performanceHistory_absorb_all. cbn [performanceHistory initial app].
    unfold timed.
    induction (List.filter positive (processed messages)) as [|tp l IH];
      constructor;
      [split; reflexivity | exact IH].
Qed.

(** C5 fails on a payload that has a duration and no token members: the
    history entry has neither [tokensIn] nor [tokensOut]. *)
Lemma history_tokens_absent :
  exists r log' e,
    getApiMetrics [duration_payload] [] = (inr r, log')
    /\ performanceHistory r = [e]
    /\ Entry.tokensIn e = None /\ Entry.tokensOut e = None.
Proof.
  eexists _, _, _. split; [vm_compute; reflexivity|].
  repeat split; reflexivity.
Qed.

Lemma defaults_and_history_tokens_witness :
  exists r log',
    getApiMetrics [null_payload] [] = (inr r, log') /\ r = initial.
Proof.
  destruct (defaults_and_history_tokens [null_payload] [])
    as (r & log' & Hrun & Hinit & _).
  exists r, log'. split; [exact Hrun|]. apply Hinit. reflexivity.
Defined.

(** C6. The function returns a result record for every input and every
    state of the console: every exception raised on the way ([JSON.parse]
    on malformed text, destructuring of [null]) is caught inside.  On the
    empty sequence the record is the initial one. *)
Theorem getApiMetrics_never_throws (messages : list ClineMessage)
    (log : list Error) :
  (exists r log', getApiMetrics messages log = (inr r, log'))
  /\ getApiMetrics [] log = (inr initial, log).
Proof.
  split.
  - rewrite getApiMetrics_closed. eauto.
  - reflexivity.
Qed.

(** C7. [totalCacheWrites] is absent exactly when no processed payload has
    a numeric [cacheWrites]; otherwise it is the sum of the numeric
    occurrences, starting from 0 at the first. The same for
    [totalCacheReads] and [cacheReads]. *)
Theorem cache_totals_spec (messages : list ClineMessage) (log : list Error) :
  exists r log',
    getApiMetrics messages log = (inr r, log')
    /\ (totalCacheWrites r = None
        <-> forall tp, tp ∈ processed messages -> cacheWrites tp.2 = None)
    /\ totalCacheWrites r
       = match occurrences cacheWrites messages with
         | [] => None
         | ws => Some (sumQ ws)
         end
    /\ (totalCacheReads r = None
        <-> forall tp, tp ∈ processed messages -> cacheReads tp.2 = None)
    /\ totalCacheReads r
       = match occurrences cacheReads messages with
         | [] => None
         | ws => Some (sumQ ws)
         end.
Proof.
  closed_form messages log.
  destruct (finish_fields (set_contextTokens (context_of messages)
              (absorb_all (processed messages) initial)))
    as (_ & _ & -> & -> & _).
  cbn [totalCacheWrites totalCacheReads set_contextTokens].
  rewrite totalCacheWrites_absorb_all, totalCacheReads_absorb_all.
  cbn [totalCacheWrites totalCacheReads initial].
  rewrite !fold_add_cache_None, !omap_id_map. unfold occurrences.
  repeat split.
  - intros H. apply omap_nil_iff.
    destruct (omap _ _); [reflexivity | discriminate].
  - intros H. apply omap_nil_iff in H. rewrite H. reflexivity.
  - intros H. apply omap_nil_iff.
    destruct (omap _ _); [reflexivity | discriminate].
  - intros H. apply omap_nil_iff in H. rewrite H. reflexivity.
Qed.

Lemma cache_totals_spec_witness :
  exists r log',
    getApiMetrics three_requests [] = (inr r, log')
    /\ totalCacheWrites r = None /\ totalCacheReads r = None.
Proof.
  destruct (cache_totals_spec three_requests [])
    as (r & log' & Hrun & [_ Hw] & _ & [_ Hr] & _).
  exists r, log'. split; [exact Hrun|].
  split; [apply Hw | apply Hr]; intros tp Htp; vm_compute in Htp;
    repeat (apply elem_of_cons in Htp as [-> | Htp]; [reflexivity|]);
    inversion Htp.
Defined.

(** C8. [averageDuration] is [totalDuration / requestCount] when both are
    above zero, and 0 otherwise. *)
Theorem averageDuration_spec (messages : list ClineMessage) (log : list Error) :
  exists r log',
    getApiMetrics messages log = (inr r, log')
    /\ ((0 < requestCount r)%nat -> (0 < totalDuration r)%Q ->
        averageDuration r
        = (totalDuration r / inject_Z (Z.of_nat (requestCount r)))%Q)
    /\ (~ ((0 < requestCount r)%nat /\ (0 < totalDuration r)%Q) ->
        averageDuration r = 0%Q).
Proof.
  closed_form messages log.
  set (R := set_contextTokens _ _).
  assert (Havg : averageDuration R = 0%Q).
  { subst R. cbn [averageDuration set_contextTokens].
    apply averageDuration_absorb_all. }
  unfold finish.
  destruct (0 <? requestCount R)%nat eqn:Hn; cbn [andb].
  - destruct (gt0 (totalDuration R)) eqn:Hd.
    + split; [reflexivity|]. intros Hnot. exfalso. apply Hnot.
      cbn [requestCount totalDuration set_averageDuration].
      split; [apply Nat.ltb_lt, Hn | apply gt0_spec, Hd].
    + split; [|intros _; exact Havg].
      intros _ Hpos. apply gt0_spec in Hpos. congruence.
  - split; [|intros _; exact Havg].
    intros Hpos _. apply Nat.ltb_lt in Hpos. congruence.
Qed.

Lemma averageDuration_spec_witness :
  (exists r log',
     getApiMetrics scenario1 [] = (inr r, log')
     /\ averageDuration r
        = (totalDuration r / inject_Z (Z.of_nat (requestCount r)))%Q)
  /\ (exists r log',
        getApiMetrics [null_payload] [] = (inr r, log')
        /\ averageDuration r = 0%Q).
Proof.
  split.
  - destruct (averageDuration_spec scenario1 [])
      as (r & log' & Hrun & Hpos & _).
    exists r, log'. split; [exact Hrun|].
    assert (Hr : requestCount r = 1 /\ totalDuration r = 150%Q).
    { vm_compute in Hrun. injection Hrun as <- _. split; reflexivity. }
    destruct Hr as [Hc Hd].
    apply Hpos; [rewrite Hc; lia | rewrite Hd; reflexivity].
  - destruct (averageDuration_spec [null_payload] [])
      as (r & log' & Hrun & _ & Hzero).
    exists r, log'. split; [exact Hrun|].
    assert (Hr : requestCount r = 0).
    { vm_compute in Hrun. injection Hrun as <- _. reflexivity. }
    apply Hzero. rewrite Hr. intros [H _]. lia.
Defined.

(** C9. The result record depends on the message sequence only: it is the
    same whatever the console held before, and calling the function a second
    time on the same sequence, after the first call has written to the
    console, returns the same record. *)
Theorem getApiMetrics_deterministic (messages : list ClineMessage)
    (log1 log2 : list Error) :
  (getApiMetrics messages log1).1 = (getApiMetrics messages log2).1
  /\ (getApiMetrics messages (getApiMetrics messages log1).2).1
     = (getApiMetrics messages log1).1.
Proof.
  rewrite !getApiMetrics_closed. split; reflexivity.
Qed.

(** ** The scenarios of the specification *)

Example scenario_1 :
  exists r,
    (getApiMetrics scenario1 []).1 = inr r
    /\ totalTokensIn r = 10%Q /\ totalTokensOut r = 20%Q
    /\ totalCost r = (5 # 1000)%Q /\ totalDuration r = 150%Q
    /\ requestCount r = 1 /\ averageDuration r = 150%Q
    /\ requestsByProvider r = {[ "openai"%string := Js.of_nat 1 ]}
    /\ contextTokens r = 30%Q.
Proof.
  eexists. split; [vm_compute; reflexivity|].
  repeat split; vm_compute; reflexivity.
Qed.

Example scenario_2 :
  exists r,
    (getApiMetrics
       [started 1 (Encodes (JObj (duration_only 150)));
        started 2 (Encodes (JObj
          (mkPayload None None None None None (Some 1000%Q) (Some 1300%Q)
             None None None)))] []).1 = inr r
    /\ totalDuration r = 450%Q
    /\ Entry.duration <$> performanceHistory r = [150%Q; 300%Q].
Proof.
  eexists. split; [vm_compute; reflexivity|].
  repeat split; vm_compute; reflexivity.
Qed.

Example scenario_3 :
  getApiMetrics [started 3 (Malformed "not json")] []
  = (inr initial, [SyntaxError]).
Proof. reflexivity. Qed.

Example scenario_4 :
  exists r,
    (getApiMetrics [started 1 (Encodes (JObj
       (mkPayload None None None None None None None (Some 0%Q)
          (Some "openai"%string) None)))] []).1 = inr r
    /\ r = set_requestCount 1 initial.
Proof.
  eexists. split; [vm_compute; reflexivity|]. reflexivity.
Qed.


(** ** Further properties of the aggregation *)

Lemma fold_add_number (vs : list (option Q)) (a : Q) :
  fold_left add_number vs a = fold_left Qplus (omap id vs) a.
Proof.
  revert a. induction vs as [|[x|] vs IH]; intros a; simpl;
    [reflexivity | apply IH | apply IH].
Qed.

Lemma totals_absorb_all (ps : list (Z * Payload)) (r : ApiMetrics) :
  totalTokensIn (absorb_all ps r)
  = fold_left add_number (map (fun tp => tokensIn tp.2) ps) (totalTokensIn r)
  /\ totalTokensOut (absorb_all ps r)
     = fold_left add_number (map (fun tp => tokensOut tp.2) ps)
         (totalTokensOut r)
  /\ totalCost (absorb_all ps r)
     = fold_left add_number (map (fun tp => cost tp.2) ps) (totalCost r).
Proof.
  revert r. induction ps as [|tp ps IH]; intros r; [repeat split|].
  cbn [absorb_all fold_left map].
  destruct (IH (absorb tp r)) as (H1 & H2 & H3).
  unfold absorb_all in H1, H2, H3. rewrite H1, H2, H3. repeat split.
Qed.

Lemma logged_failure (messages : list ClineMessage) :
  concat (map logged messages) = omap failure messages.
Proof.
  induction messages as [|m l IH]; [reflexivity|].
  cbn [map concat]. rewrite IH.
  change (omap failure (m :: l))
    with (match failure m with
          | Some e => e :: omap failure l
          | None => omap failure l
          end).
  unfold logged, failure.
  destruct (is_api_req_started m); [|reflexivity].
  destruct (text m) as [[| raw | []] |]; reflexivity.
Qed.

Lemma requestsByProvider_absorb_all ps r :
  requestsByProvider (absorb_all ps r)
  = fold_left (fun m tp => tally (provider tp.2) m)
      (List.filter positive ps) (requestsByProvider r).
Proof.
  revert r. induction ps as [|tp l IH]; intros r; simpl; [reflexivity|].
  rewrite IH. unfold positive at 2. simpl.
  destruct (gt0 (requestDuration tp.2)); reflexivity.
Qed.

Lemma requestsByModel_absorb_all ps r :
  requestsByModel (absorb_all ps r)
  = fold_left (fun m tp => tally (modelId tp.2) m)
      (List.filter positive ps) (requestsByModel r).
Proof.
  revert r. induction ps as [|tp l IH]; intros r; simpl; [reflexivity|].
  rewrite IH. unfold positive at 2. simpl.
  destruct (gt0 (requestDuration tp.2)); reflexivity.
Qed.

Lemma getApiMetrics_is_closed (messages : list ClineMessage) (log : list Error) :
  getApiMetrics messages log
  = (inr (closed messages), log ++ omap failure messages).
Proof. rewrite getApiMetrics_closed, logged_failure. reflexivity. Qed.

(** Every field of the returned record, read off the input. *)
Lemma closed_fields (messages : list ClineMessage) :
  totalTokensIn (closed messages) = sumQ (occurrences tokensIn messages)
  /\ totalTokensOut (closed messages) = sumQ (occurrences tokensOut messages)
  /\ totalCost (closed messages) = sumQ (occurrences cost messages)
  /\ contextTokens (closed messages) = context_of messages
  /\ totalDuration (closed messages)
     = sumQ (map (fun tp => requestDuration tp.2) (timed messages))
  /\ requestCount (closed messages) = length (processed messages)
  /\ requestsByProvider (closed messages)
     = fold_left (fun m tp => tally (provider tp.2) m) (timed messages) ∅
  /\ requestsByModel (closed messages)
     = fold_left (fun m tp => tally (modelId tp.2) m) (timed messages) ∅
  /\ durationByProvider (closed messages)
     = fold_left (fun m tp => charge (provider tp.2) (requestDuration tp.2) m)
         (timed messages) ∅
  /\ durationByModel (closed messages)
     = fold_left (fun m tp => charge (modelId tp.2) (requestDuration tp.2) m)
         (timed messages) ∅
  /\ performanceHistory (closed messages) = map entry_of (timed messages).
Proof.
  unfold closed.
  destruct (finish_fields (set_contextTokens (context_of messages)
              (absorb_all (processed messages) initial)))
    as (-> & -> & _ & _ & -> & -> & -> & -> & -> & -> & -> & -> & ->).
  cbn [totalTokensIn totalTokensOut totalCost contextTokens totalDuration
       requestCount requestsByProvider requestsByModel durationByProvider
       durationByModel performanceHistory set_contextTokens].
  destruct (totals_absorb_all (processed messages) initial) as (-> & -> & ->).
  rewrite !fold_add_number, !omap_id_map.
  rewrite totalDuration_absorb_all, requestCount_absorb_all,
    requestsByProvider_absorb_all, requestsByModel_absorb_all,
    durationByProvider_absorb_all, durationByModel_absorb_all,
    performanceHistory_absorb_all.
  repeat split.
Qed.

(** X1. [totalTokensIn], [totalTokensOut] and [totalCost] are the sums, in
    input order, of the numeric [tokensIn], [tokensOut] and [cost] members
    of the processed payloads; a payload without the member adds nothing. *)
Theorem token_and_cost_totals (messages : list ClineMessage) (log : list Error) :
  exists r log',
    getApiMetrics messages log = (inr r, log')
    /\ totalTokensIn r = sumQ (occurrences tokensIn messages)
    /\ totalTokensOut r = sumQ (occurrences tokensOut messages)
    /\ totalCost r = sumQ (occurrences cost messages).
Proof.
  exists (closed messages), (log ++ omap failure messages).
  split; [apply getApiMetrics_is_closed|].
  destruct (closed_fields messages) as (H1 & H2 & H3 & _).
  repeat split; assumption.
Qed.

Lemma processed_filter_started (messages : list ClineMessage) :
  processed (List.filter is_api_req_started messages) = processed messages.
Proof.
  induction messages as [|m l IH]; [reflexivity|].
  cbn [List.filter]. destruct (is_api_req_started m) eqn:E.
  - rewrite !processed_cons, IH. reflexivity.
  - rewrite processed_cons, IH. unfold payload_of. rewrite E. reflexivity.
Qed.

Lemma logged_filter_started (messages : list ClineMessage) :
  concat (map logged (List.filter is_api_req_started messages))
  = concat (map logged messages).
Proof.
  induction messages as [|m l IH]; [reflexivity|].
  cbn [List.filter]. destruct (is_api_req_started m) eqn:E.
  - cbn [map concat]. rewrite IH. reflexivity.
  - cbn [map concat]. rewrite IH. unfold logged. rewrite E. reflexivity.
Qed.

Lemma find_rev_filter {A} (P f : A -> bool) (l : list A) :
  (forall x, P x = true -> f x = true) ->
  find P (rev (List.filter f l)) = find P (rev l).
Proof.
  intros Himp. induction l as [|x l IH]; [reflexivity|].
  cbn [List.filter rev]. destruct (f x) eqn:E.
  - cbn [rev]. rewrite !find_app_first, IH. reflexivity.
  - rewrite find_app_first, IH. cbn [find].
    destruct (P x) eqn:EP; [|destruct (find P (rev l)); reflexivity].
    rewrite (Himp x EP) in E. discriminate.
Qed.

(** X2. Messages that are not tagged as an API-request start ([type] other
    than "say", or [say] other than "api_req_started") play no part:
    dropping them all from the sequence changes neither the record nor what
    is written to the console. *)
Theorem untagged_messages_ignored (messages : list ClineMessage)
    (log : list Error) :
  getApiMetrics (List.filter is_api_req_started messages) log
  = getApiMetrics messages log.
Proof.
  rewrite !getApiMetrics_closed.
  rewrite processed_filter_started, logged_filter_started.
  unfold context_of. rewrite (find_rev_filter qualifies is_api_req_started);
    [reflexivity|].
  intros x Hx. unfold qualifies in Hx. apply andb_true_iff in Hx as [H _].
  exact H.
Qed.

Lemma fold_left_Qplus (l : list Q) (a : Q) :
  (fold_left Qplus l a == a + sumQ l)%Q.
Proof.
  unfold sumQ. revert a. induction l as [|x l IH]; intros a; simpl.
  - ring.
  - rewrite (IH (a + x)%Q), (IH (0 + x)%Q). ring.
Qed.

Lemma sumQ_app (l1 l2 : list Q) : (sumQ (l1 ++ l2) == sumQ l1 + sumQ l2)%Q.
Proof.
  unfold sumQ at 1. rewrite fold_left_app. fold (sumQ l1).
  apply fold_left_Qplus.
Qed.

Lemma timed_app (l1 l2 : list ClineMessage) :
  timed (l1 ++ l2) = timed l1 ++ timed l2.
Proof. unfold timed. rewrite processed_app. apply List.filter_app. Qed.

Lemma occurrences_app (field : Payload -> option Q) (l1 l2 : list ClineMessage) :
  occurrences field (l1 ++ l2) = occurrences field l1 ++ occurrences field l2.
Proof. unfold occurrences. rewrite processed_app. apply omap_app. Qed.

Lemma find_rev_existsb {A} (P : A -> bool) (l : list A) :
  existsb P l = match find P (rev l) with Some _ => true | None => false end.
Proof.
  destruct (find P (rev l)) as [x|] eqn:E.
  - apply find_some in E as [Hin Hx]. apply existsb_exists.
    exists x. split; [apply in_rev, Hin | exact Hx].
  - destruct (existsb P l) eqn:Ex; [|reflexivity].
    apply existsb_exists in Ex as (x & Hin & Hx).
    assert (Hf : P x = false).
    { apply (find_none _ _ E). apply in_rev. rewrite rev_involutive.
      exact Hin. }
    congruence.
Qed.

Lemma context_of_app (l1 l2 : list ClineMessage) :
  context_of (l1 ++ l2)
  = if existsb qualifies l2 then context_of l2 else context_of l1.
Proof.
  unfold context_of. rewrite rev_app_distr, find_app_first, find_rev_existsb.
  destruct (find qualifies (rev l2)); reflexivity.
Qed.

(** X3. The aggregation composes over concatenation. For a sequence
    [l1 ++ l2]: [requestCount] is the sum of the counts of the two parts,
    [performanceHistory] is the history of [l1] followed by that of [l2],
    each of the token, cost and duration totals is the total of [l1] with
    the contributions of [l2] added to it one after the other,
    [contextTokens] comes from [l2] when [l2] has a qualifying message and
    from [l1] otherwise, and the console ends up as after a call on [l1]
    followed by a call on [l2]. *)
Theorem aggregation_of_concatenation (l1 l2 : list ClineMessage)
    (log : list Error) :
  exists r1 log1 r2 log2 r,
    getApiMetrics l1 log = (inr r1, log1)
    /\ getApiMetrics l2 log1 = (inr r2, log2)
    /\ getApiMetrics (l1 ++ l2) log = (inr r, log2)
    /\ requestCount r = requestCount r1 + requestCount r2
    /\ performanceHistory r = performanceHistory r1 ++ performanceHistory r2
    /\ totalTokensIn r
       = fold_left Qplus (occurrences tokensIn l2) (totalTokensIn r1)
    /\ totalTokensOut r
       = fold_left Qplus (occurrences tokensOut l2) (totalTokensOut r1)
    /\ totalCost r = fold_left Qplus (occurrences cost l2) (totalCost r1)
    /\ totalDuration r
       = fold_left Qplus (map (fun tp => requestDuration tp.2) (timed l2))
           (totalDuration r1)
    /\ contextTokens r
       = if existsb qualifies l2 then contextTokens r2 else contextTokens r1.
Proof.
  exists (closed l1), (log ++ omap failure l1),
         (closed l2), ((log ++ omap failure l1) ++ omap failure l2),
         (closed (l1 ++ l2)).
  split; [apply getApiMetrics_is_closed|].
  split; [apply getApiMetrics_is_closed|].
  split.
  { rewrite getApiMetrics_is_closed, omap_app, app_assoc. reflexivity. }
  destruct (closed_fields l1)
    as (Hi1 & Ho1 & Hc1 & Hx1 & Hd1 & Hn1 & _ & _ & _ & _ & Hh1).
  destruct (closed_fields l2)
    as (_ & _ & _ & Hx2 & _ & Hn2 & _ & _ & _ & _ & Hh2).
  destruct (closed_fields (l1 ++ l2))
    as (Hi & Ho & Hc & Hx & Hd & Hn & _ & _ & _ & _ & Hh).
  rewrite Hn, Hh, Hi, Ho, Hc, Hd, Hx, Hn1, Hh1, Hi1, Ho1, Hc1, Hd1, Hx1,
    Hn2, Hh2, Hx2.
  rewrite !occurrences_app, processed_app, length_app, timed_app, !map_app,
    context_of_app.
  unfold sumQ. rewrite !fold_left_app. repeat split.
Qed.


(** *** The records and the prototype *)


Lemma inherited_name_proto (k : string) :
  inherited_name k = false -> String.eqb k "__proto__" = false.
Proof.
  unfold inherited_name, member_text.
  destruct (String.eqb k "__proto__"); [discriminate | reflexivity].
Qed.

Lemma member_text_ordinary (k : string) :
  inherited_name k = false -> member_text k = None.
Proof.
  unfold inherited_name. destruct (member_text k); [discriminate | reflexivity].
Qed.

Lemma inject_Z_succ (a : Z) : (inject_Z a + 1)%Q = inject_Z (a + 1).
Proof.
  unfold Qplus, inject_Z. cbn [Qnum Qden]. rewrite Z.mul_1_r. reflexivity.
Qed.

(** On a key that [Object.prototype] does not have, the two assignments do
    to a record of numbers what [own_tally] and [own_charge] do to the
    finite map of those numbers. *)
Lemma tally_ordinary (m : gmap string nat) (v : option string) :
  match truthy_str v with
  | Some k => inherited_name k = false
  | None => True
  end ->
  tally v (Js.of_nat <$> m) = Js.of_nat <$> own_tally v m.
Proof.
  unfold tally, own_tally. destruct (truthy_str v) as [k|]; [|reflexivity].
  intros Hord. unfold Js.write, Js.read.
  rewrite (inherited_name_proto k Hord), (member_text_ordinary k Hord).
  rewrite lookup_fmap, fmap_insert. f_equal.
  destruct (m !! k) as [n|]; cbn [fmap option_fmap option_map or0n];
    [|reflexivity].
  unfold Js.of_nat, Js.or0, truthy. cbn [Qnum inject_Z].
  destruct n as [|n]; [reflexivity|].
  replace (Z.of_nat (S n) =? 0)%Z with false
    by (symmetry; apply Z.eqb_neq; lia).
  cbn [negb Js.add]. rewrite inject_Z_succ. do 2 f_equal. lia.
Qed.

Lemma charge_ordinary (m : gmap string Q) (v : option string) (d : Q) :
  match truthy_str v with
  | Some k => inherited_name k = false
  | None => True
  end ->
  charge v d (Js.Num <$> m) = Js.Num <$> own_charge v d m.
Proof.
  unfold charge, own_charge. destruct (truthy_str v) as [k|]; [|reflexivity].
  intros Hord. unfold Js.write, Js.read.
  rewrite (inherited_name_proto k Hord), (member_text_ordinary k Hord).
  rewrite lookup_fmap, fmap_insert. f_equal.
  destruct (m !! k) as [q|]; cbn [fmap option_fmap option_map or0 Js.or0];
    [|reflexivity].
  destruct (truthy q); reflexivity.
Qed.

Lemma tallies_ordinary (sel : Payload -> option string)
    (l : list (Z * Payload)) (m : gmap string nat) :
  ordinary_keys sel l ->
  fold_left (fun m tp => tally (sel tp.2) m) l (Js.of_nat <$> m)
  = Js.of_nat <$> fold_left (fun m tp => own_tally (sel tp.2) m) l m.
Proof.
  intros Hord. revert m. induction Hord as [|tp l Htp Hl IH]; intros m;
    [reflexivity|].
  cbn [fold_left]. rewrite (tally_ordinary m _ Htp). apply IH.
Qed.

Lemma charges_ordinary (sel : Payload -> option string)
    (l : list (Z * Payload)) (m : gmap string Q) :
  ordinary_keys sel l ->
  fold_left (fun m tp => charge (sel tp.2) (requestDuration tp.2) m) l
    (Js.Num <$> m)
  = Js.Num <$> fold_left
                 (fun m tp => own_charge (sel tp.2) (requestDuration tp.2) m)
                 l m.
Proof.
  intros Hord. revert m. induction Hord as [|tp l Htp Hl IH]; intros m;
    [reflexivity|].
  cbn [fold_left]. rewrite (charge_ordinary m _ _ Htp). apply IH.
Qed.

Lemma tallies_from_empty (sel : Payload -> option string)
    (l : list (Z * Payload)) :
  ordinary_keys sel l ->
  fold_left (fun m tp => tally (sel tp.2) m) l ∅
  = Js.of_nat <$> fold_left (fun m tp => own_tally (sel tp.2) m) l ∅.
Proof.
  intros Hord. rewrite <- (tallies_ordinary sel l ∅ Hord), fmap_empty.
  reflexivity.
Qed.

Lemma charges_from_empty (sel : Payload -> option string)
    (l : list (Z * Payload)) :
  ordinary_keys sel l ->
  fold_left (fun m tp => charge (sel tp.2) (requestDuration tp.2) m) l ∅
  = Js.Num <$> fold_left
                 (fun m tp => own_charge (sel tp.2) (requestDuration tp.2) m)
                 l ∅.
Proof.
  intros Hord. rewrite <- (charges_ordinary sel l ∅ Hord), fmap_empty.
  reflexivity.
Qed.


Section Keyed.
Variable sel : Payload -> option string.
Variable k : string.


End Keyed.

Lemma timed_positive (messages : list ClineMessage) :
  Forall (fun tp => positive tp = true) (timed messages).
Proof.
  unfold timed. apply Forall_forall. intros tp Hin.
  apply list_elem_of_In, filter_In in Hin. apply Hin.
Qed.



Lemma sumQ_positive (l : list Q) (a : Q) :
  Forall (fun x => (0 < x)%Q) l -> (a <= fold_left Qplus l a)%Q.
Proof.
  intros H. revert a. induction H as [|x l Hx Hl IH]; intros a; simpl.
  - apply Qle_refl.
  - apply Qle_trans with (y := (a + x)%Q); [|apply IH].
    rewrite <- (Qplus_0_r a) at 1. apply Qplus_le_r, Qlt_le_weak, Hx.
Qed.

Lemma timed_durations_positive (messages : list ClineMessage) :
  Forall (fun x => (0 < x)%Q)
    (map (fun tp => requestDuration tp.2) (timed messages)).
Proof.
  apply Forall_map. eapply Forall_impl; [apply timed_positive|].
  intros tp Htp. apply gt0_spec, Htp.
Qed.

Lemma length_timed_le (messages : list ClineMessage) :
  length (timed messages) <= length (processed messages).
Proof. unfold timed. apply List.filter_length_le. Qed.

(** X6. The history and the totals agree with each other: [totalDuration]
    is the sum of the durations of the history entries, every entry has a
    duration above zero, and there are at most [requestCount] entries. *)
Theorem history_matches_totals (messages : list ClineMessage)
    (log : list Error) :
  exists r log',
    getApiMetrics messages log = (inr r, log')
    /\ totalDuration r = sumQ (map Entry.duration (performanceHistory r))
    /\ Forall (fun e => (0 < Entry.duration e)%Q) (performanceHistory r)
    /\ length (performanceHistory r) <= requestCount r.
Proof.
  exists (closed messages), (log ++ omap failure messages).
  split; [apply getApiMetrics_is_closed|].
  destruct (closed_fields messages)
    as (_ & _ & _ & _ & -> & -> & _ & _ & _ & _ & ->).
  rewrite map_map, length_map. cbn [Entry.duration entry_of].
  split; [reflexivity|]. split; [|apply length_timed_le].
  apply Forall_map. eapply Forall_impl; [apply timed_positive|].
  intros tp Htp. apply gt0_spec, Htp.
Qed.

(** X7. As soon as one request has a derived duration above zero,
    [totalDuration] is above zero, [requestCount] is at least 1, and
    [averageDuration] is the quotient of the two, which lies between 0 and
    [totalDuration]; with no such request the history is empty and both
    [totalDuration] and [averageDuration] are 0. *)
Theorem averageDuration_of_timed_requests (messages : list ClineMessage)
    (log : list Error) :
  exists r log',
    getApiMetrics messages log = (inr r, log')
    /\ (performanceHistory r <> [] ->
        (0 < totalDuration r)%Q
        /\ 1 <= requestCount r
        /\ averageDuration r
           = (totalDuration r / inject_Z (Z.of_nat (requestCount r)))%Q
        /\ (0 <= averageDuration r)%Q
        /\ (averageDuration r <= totalDuration r)%Q)
    /\ (performanceHistory r = [] ->
        totalDuration r = 0%Q /\ averageDuration r = 0%Q).
Proof.
  exists (closed messages), (log ++ omap failure messages).
  split; [apply getApiMetrics_is_closed|].
  destruct (closed_fields messages)
    as (_ & _ & _ & _ & Hd & Hn & _ & _ & _ & _ & Hh).
  rewrite Hh.
  assert (Hfin : forall R,
    averageDuration R = 0%Q ->
    averageDuration (finish R)
    = if (0 <? requestCount R)%nat && gt0 (totalDuration R)
      then (totalDuration R / inject_Z (Z.of_nat (requestCount R)))%Q
      else 0%Q).
  { intros R HR. unfold finish.
    destruct ((0 <? requestCount R)%nat && gt0 (totalDuration R));
      [reflexivity | exact HR]. }
  assert (Havg : averageDuration (closed messages)
    = if (0 <? requestCount (closed messages))%nat
         && gt0 (totalDuration (closed messages))
      then (totalDuration (closed messages)
            / inject_Z (Z.of_nat (requestCount (closed messages))))%Q
      else 0%Q).
  { unfold closed at 1. rewrite Hfin.
    - destruct (finish_fields (set_contextTokens (context_of messages)
                  (absorb_all (processed messages) initial)))
        as (_ & _ & _ & _ & _ & _ & Ht & Hc & _).
      unfold closed. rewrite Ht, Hc. reflexivity.
    - cbn [averageDuration set_contextTokens].
      apply averageDuration_absorb_all. }
  split.
  - intros Hne.
    pose proof (timed_durations_positive messages) as HF.
    pose proof (length_timed_le messages) as Hle.
    destruct (timed messages) as [|tp l];
      [exfalso; apply Hne; reflexivity|].
    assert (Hpos : (0 < totalDuration (closed messages))%Q).
    { rewrite Hd. cbn [map]. unfold sumQ. cbn [fold_left].
      cbn [map] in HF. inversion HF as [|x0 l0 Hx Hl]; subst.
      eapply Qlt_le_trans; [|apply sumQ_positive, Hl].
      rewrite Qplus_0_l. exact Hx. }
    assert (Hcount : 1 <= requestCount (closed messages)).
    { rewrite Hn. cbn [length] in Hle. lia. }
    rewrite Havg.
    replace (0 <? requestCount (closed messages))%nat with true
      by (symmetry; apply Nat.ltb_lt; lia).
    rewrite (proj2 (gt0_spec _) Hpos). cbn [andb].
    set (n := inject_Z (Z.of_nat (requestCount (closed messages)))).
    assert (Hn1 : (1 <= n)%Q).
    { subst n. unfold Qle. simpl. lia. }
    assert (Hn0 : (0 < n)%Q).
    { eapply Qlt_le_trans; [|exact Hn1]. reflexivity. }
    split; [exact Hpos|]. split; [exact Hcount|]. split; [reflexivity|].
    split.
    + apply Qle_shift_div_l; [exact Hn0|]. rewrite Qmult_0_l.
      apply Qlt_le_weak, Hpos.
    + apply Qle_shift_div_r; [exact Hn0|].
      rewrite <- (Qmult_1_r (totalDuration (closed messages))) at 1.
      apply Qmult_le_l; [exact Hpos | exact Hn1].
  - intros Hnil. apply map_eq_nil in Hnil.
    assert (Hz : totalDuration (closed messages) = 0%Q).
    { rewrite Hd, Hnil. reflexivity. }
    split; [exact Hz|].
    rewrite Havg, Hz. rewrite andb_false_r. reflexivity.
Qed.

Lemma averageDuration_of_timed_requests_witness :
  exists r log',
    getApiMetrics with_zero_duration [] = (inr r, log')
    /\ (0 < totalDuration r)%Q
    /\ (averageDuration r <= totalDuration r)%Q.
Proof.
  destruct (averageDuration_of_timed_requests with_zero_duration [])
    as (r & log' & Hrun & Hsome & _).
  exists r, log'. split; [exact Hrun|].
  assert (Hne : performanceHistory r <> []).
  { vm_compute in Hrun. injection Hrun as <- _. discriminate. }
  destruct (Hsome Hne) as (Hpos & _ & _ & _ & Hle).
  split; assumption.
Defined.



Lemma sublist_List_filter {A} (f : A -> bool) (l : list A) :
  List.filter f l `sublist_of` l.
Proof.
  induction l as [|x l IH]; [constructor|].
  cbn [List.filter]. destruct (f x); [apply sublist_skip | apply sublist_cons];
    exact IH.
Qed.

Lemma processed_ts_sublist (messages : list ClineMessage) :
  map fst (processed messages) `sublist_of` map ts messages.
Proof.
  induction messages as [|m l IH]; [constructor|].
  rewrite processed_cons. destruct (payload_of m); cbn [map fst].
  - apply sublist_skip, IH.
  - apply sublist_cons, IH.
Qed.

(** X9. [performanceHistory] keeps the order of the input: the timestamps
    of its entries, in order, form a subsequence of the timestamps of the
    messages. Nothing is sorted or duplicated. *)
Theorem history_in_input_order (messages : list ClineMessage)
    (log : list Error) :
  exists r log',
    getApiMetrics messages log = (inr r, log')
    /\ map Entry.ts (performanceHistory r) `sublist_of` map ts messages.
Proof.
  exists (closed messages), (log ++ omap failure messages).
  split; [apply getApiMetrics_is_closed|].
  destruct (closed_fields messages)
    as (_ & _ & _ & _ & _ & _ & _ & _ & _ & _ & ->).
  rewrite map_map. cbn [Entry.ts entry_of].
  transitivity (map fst (processed messages)); [|apply processed_ts_sublist].
  change (fun x : Z * Payload => x.1) with (@fst Z Payload).
  apply (fmap_sublist fst). unfold timed. apply sublist_List_filter.
Qed.

(** ** Properties of the data prepared by [PerformanceView] *)

(** The payload the view reads off a message that passed its filter. *)
Lemma extract_spec (msg : ClineMessage) :
  text_truthy (text msg) <> None ->
  extract msg
  = match text msg with
    | Some (Encodes (JObj p)) =>
        Some (View.mkData (ts msg) (or0 (duration p)) (or0 (tokensIn p))
                (or0 (tokensOut p)) (or_unknown (provider p))
                (or_unknown (modelId p)) (or0 (cost p)))
    | Some (Encodes (JBool _ | JNum _ | JStr _ | JArr)) =>
        Some (View.mkData (ts msg) 0 0 0 "unknown" "unknown" 0)
    | _ => None
    end.
Proof.
  unfold extract. destruct (text msg) as [[| raw | []] |]; cbn [text_truthy];
    intros H; try reflexivity; congruence.
Qed.

Lemma extract_is_Some (msg : ClineMessage) :
  is_api_request msg = true ->
  is_Some (extract msg) <-> parses_to_non_null msg = true.
Proof.
  unfold is_api_request. intros H. apply andb_true_iff in H as [_ Ht].
  rewrite extract_spec by (destruct (text_truthy (text msg)); congruence).
  unfold parses_to_non_null.
  destruct (text msg) as [[| raw | []] |]; split; intros H;
    try reflexivity; try discriminate; try (destruct H; discriminate); eauto.
Qed.

Lemma length_extractedData (messages : list ClineMessage) :
  length (extractedData messages)
  = length (List.filter
              (fun m => bool_decide (say m = Some "api_req_started"%string)
                        && parses_to_non_null m) messages).
Proof.
  unfold extractedData. induction messages as [|m l IH]; [reflexivity|].
  cbn [List.filter].
  destruct (is_api_request m) eqn:E.
  - change (omap extract (m :: List.filter is_api_request l))
      with (match extract m with
            | Some x => x :: omap extract (List.filter is_api_request l)
            | None => omap extract (List.filter is_api_request l)
            end).
    pose proof (extract_is_Some m E) as Hs.
    unfold is_api_request in E. apply andb_true_iff in E as [-> _].
    cbn [andb]. destruct (parses_to_non_null m).
    + destruct (proj2 Hs eq_refl) as [x ->]. cbn [length]. rewrite IH.
      reflexivity.
    + destruct (extract m) as [x|] eqn:Ex; [|exact IH].
      assert (is_Some (Some x)) as Hx by eauto.
      apply Hs in Hx. discriminate.
  - rewrite IH. unfold is_api_request in E.
    destruct (bool_decide (say m = Some "api_req_started"%string));
      [|reflexivity].
    cbn [andb] in *. unfold parses_to_non_null.
    destruct (text m) as [[| raw | v] |]; try reflexivity; discriminate.
Qed.

Lemma started_is_say (m : ClineMessage) :
  is_api_req_started m = true ->
  bool_decide (say m = Some "api_req_started"%string) = true.
Proof. unfold is_api_req_started. destruct (type m); [discriminate | auto]. Qed.

(** X10. The view and the aggregator count the same requests, up to the
    [type] of the message: the view extracts at least as many requests as
    [getApiMetrics] counts in [requestCount], and exactly as many when
    every message whose [say] is "api_req_started" has [type] "say" (the
    view does not look at [type]). *)
Theorem view_extracts_counted_requests (messages : list ClineMessage)
    (log : list Error) :
  exists r log',
    getApiMetrics messages log = (inr r, log')
    /\ requestCount r <= length (extractedData messages)
    /\ (Forall (fun m => say m = Some "api_req_started"%string ->
                         type m = TypeSay) messages ->
        length (extractedData messages) = requestCount r).
Proof.
  exists (closed messages), (log ++ omap failure messages).
  split; [apply getApiMetrics_is_closed|].
  destruct (closed_fields messages) as (_ & _ & _ & _ & _ & -> & _).
  rewrite length_processed, length_extractedData. split.
  - induction messages as [|m l IH]; [reflexivity|].
    cbn [List.filter].
    destruct (is_api_req_started m) eqn:E.
    + rewrite (started_is_say m E). cbn [andb].
      destruct (parses_to_non_null m); cbn [length]; lia.
    + cbn [andb].
      destruct (bool_decide _ && parses_to_non_null m); cbn [length]; lia.
  - intros Hall. induction Hall as [|m l Hm Hl IH]; [reflexivity|].
    cbn [List.filter].
    assert (Heq : bool_decide (say m = Some "api_req_started"%string)
                  = is_api_req_started m).
    { unfold is_api_req_started.
      destruct (bool_decide (say m = Some "api_req_started"%string)) eqn:B.
      - apply bool_decide_eq_true in B. rewrite (Hm B). reflexivity.
      - destruct (type m); reflexivity. }
    rewrite Heq.
    destruct (is_api_req_started m && parses_to_non_null m); cbn [length];
      rewrite IH; reflexivity.
Qed.

Lemma view_extracts_counted_requests_witness :
  exists r log',
    getApiMetrics three_requests [] = (inr r, log')
    /\ length (extractedData three_requests) = requestCount r.
Proof.
  destruct (view_extracts_counted_requests three_requests [])
    as (r & log' & Hrun & _ & Heq).
  exists r, log'. split; [exact Hrun|].
  apply Heq. repeat constructor.
Defined.




Section Grouping.
Variable key : View.PerformanceData -> string.
Variable k : string.


End Grouping.


(** A request whose provider is [constructor] is extracted, yet makes no
    group: the test of the callback finds the inherited function. *)
Example view_inherited_provider :
  View.provider <$> extractedData [constructor_request]
  = ["constructor"%string]
  /\ providerStats [constructor_request] = ∅
  /\ dom (modelStats [constructor_request]) = {[ "unknown"%string ]}.
Proof. repeat split; vm_compute; reflexivity. Qed.



(** ** Properties of [PerformanceChart] *)

Lemma insert_by_timestamp_perm a l : insert_by_timestamp a l ≡ₚ a :: l.
Proof.
  induction l as [|b l IH]; [reflexivity|].
  cbn [insert_by_timestamp].
  destruct (View.timestamp a <=? View.timestamp b)%Z; [reflexivity|].
  rewrite IH. apply Permutation_swap.
Qed.

Lemma sort_by_timestamp_perm data : sort_by_timestamp data ≡ₚ data.
Proof.
  induction data as [|a l IH]; [reflexivity|].
  cbn [sort_by_timestamp fold_right]. rewrite insert_by_timestamp_perm.
  fold (sort_by_timestamp l). rewrite IH. reflexivity.
Qed.

Lemma insert_by_timestamp_sorted a l :
  Sorted by_timestamp l -> Sorted by_timestamp (insert_by_timestamp a l).
Proof.
  induction 1 as [|b l Hl IH Hb]; [repeat constructor|].
  cbn [insert_by_timestamp].
  destruct (View.timestamp a <=? View.timestamp b)%Z eqn:E.
  - apply Z.leb_le in E. repeat constructor; assumption.
  - apply Z.leb_gt in E. constructor; [exact IH|].
    destruct l as [|c l]; cbn [insert_by_timestamp].
    + constructor. unfold by_timestamp. lia.
    + destruct (View.timestamp a <=? View.timestamp c)%Z.
      * constructor. unfold by_timestamp. lia.
      * inversion Hb; subst. constructor. assumption.
Qed.

Lemma sort_by_timestamp_sorted data :
  Sorted by_timestamp (sort_by_timestamp data).
Proof.
  induction data as [|a l IH]; [constructor|].
  apply insert_by_timestamp_sorted, IH.
Qed.

Lemma bars_items data : map Chart.item (bars data) = sort_by_timestamp data.
Proof.
  unfold bars.
  change (map Chart.item (imap ?f ?l)) with (Chart.item <$> imap f l).
  rewrite fmap_imap. cbn [compose Chart.item].
  rewrite (imap_ext _ (const id)) by reflexivity.
  rewrite imap_const. apply list_fmap_id.
Qed.

(** X12. The chart draws exactly one bar per request, in non-decreasing
    order of timestamp, whatever the order of the requests it is given. *)
Theorem bars_in_timestamp_order (data : list View.PerformanceData) :
  length (bars data) = length data
  /\ map Chart.item (bars data) ≡ₚ data
  /\ Sorted by_timestamp (map Chart.item (bars data)).
Proof.
  rewrite bars_items. split; [|split].
  - rewrite <- (length_map Chart.item), bars_items.
    apply Permutation_length, sort_by_timestamp_perm.
  - apply sort_by_timestamp_perm.
  - apply sort_by_timestamp_sorted.
Qed.



Lemma bar_lookup (data : list View.PerformanceData) (i : nat) (b : Chart.Bar) :
  bars data !! i = Some b ->
  exists it,
    sort_by_timestamp data !! i = Some it
    /\ b = Chart.mkBar it (Z.of_nat i * (barWidth + gap) + 50)
             (chartHeight
              - View.duration it
                / Math_max_1 (map View.duration (sort_by_timestamp data))
                * chartHeight + 10)%Q
             barWidth
             (View.duration it
              / Math_max_1 (map View.duration (sort_by_timestamp data))
              * chartHeight)%Q
             (i mod 5 =? 0)%nat.
Proof.
  unfold bars. rewrite list_lookup_imap.
  destruct (sort_by_timestamp data !! i) as [it|]; [|discriminate].
  intros [= <-]. eauto.
Qed.



Lemma length_bars (data : list View.PerformanceData) :
  length (bars data) = length data.
Proof.
  rewrite <- (length_map Chart.item), bars_items.
  apply Permutation_length, sort_by_timestamp_perm.
Qed.

(** X14. Layout along the X axis. Bar number [i] (from 0) starts at
    [50 + 30 * i] and is 20 wide, so consecutive bars are 10 apart and every
    bar lies between the Y axis (at 40) and the end of the X axis (at
    [chartWidth + 40]). The [width] attribute of the [svg] is
    [max(chartWidth, 300)]: all bars end within it exactly when there are
    at most 8 requests. *)
Theorem bars_layout (data : list View.PerformanceData) :
  (forall i b,
     bars data !! i = Some b ->
     Chart.x b = (50 + 30 * Z.of_nat i)%Z
     /\ Chart.width b = 20%Z
     /\ (40 < Chart.x b)%Z
     /\ (Chart.x b + Chart.width b <= chartWidth data + 40)%Z)
  /\ (Forall (fun b => (Chart.x b + Chart.width b <= svgWidth data)%Z)
        (bars data)
      <-> length data <= 8).
Proof.
  assert (Hlen : length (sort_by_timestamp data) = length data)
    by apply Permutation_length, sort_by_timestamp_perm.
  assert (Hpos : forall i b, bars data !! i = Some b ->
            i < length data
            /\ Chart.x b = (50 + 30 * Z.of_nat i)%Z
            /\ Chart.width b = 20%Z).
  { intros i b Hb. pose proof (lookup_lt_Some _ _ _ Hb) as Hi.
    rewrite length_bars in Hi.
    apply bar_lookup in Hb as (it & _ & ->).
    cbn [Chart.x Chart.width]. unfold barWidth, gap. repeat split; lia. }
  split.
  - intros i b Hb. destruct (Hpos i b Hb) as (Hi & Hx & Hw).
    unfold chartWidth, barWidth, gap. rewrite Hlen, Hx, Hw.
    repeat split; lia.
  - unfold svgWidth, chartWidth, barWidth, gap. rewrite Hlen.
    rewrite Forall_lookup. split.
    + intros Hall.
      destruct (le_gt_dec (length data) 8) as [Hle|Hgt]; [exact Hle|].
      exfalso.
      destruct (lookup_lt_is_Some_2 (bars data) (length data - 1)) as [b Hb].
      { rewrite length_bars. lia. }
      specialize (Hall _ _ Hb). destruct (Hpos _ _ Hb) as (_ & Hx & Hw).
      rewrite Hx, Hw in Hall. lia.
    + intros Hle i b Hb. destruct (Hpos _ _ Hb) as (Hi & Hx & Hw).
      rewrite Hx, Hw. lia.
Qed.

Lemma bars_layout_witness :
  exists b,
    bars [View.mkData 2 150 0 0 "a" "m" 0; View.mkData 1 300 0 0 "b" "m" 0]
      !! 1 = Some b
    /\ Chart.x b = 80%Z /\ Chart.width b = 20%Z.
Proof.
  assert (Hex : exists b,
    bars [View.mkData 2 150 0 0 "a" "m" 0; View.mkData 1 300 0 0 "b" "m" 0]
      !! 1 = Some b) by (eexists; vm_compute; reflexivity).
  destruct Hex as [b Hb]. exists b. split; [exact Hb|].
  destruct (proj1 (bars_layout
                     [View.mkData 2 150 0 0 "a" "m" 0;
                      View.mkData 1 300 0 0 "b" "m" 0]) 1 b Hb)
    as (Hx & Hw & _).
  split; [exact Hx | exact Hw].
Defined.

(** ** Properties of [DeepSeekHandler] *)

(** X15. A status that was fetched is kept for five minutes: after a call
    of [checkApiStatus] that obtained a status document at time [now], a
    call at any time less than [statusCheckInterval] later sends no request
    and leaves the handler as it is, whatever the status page would say. *)
Theorem status_kept_for_interval (h : DeepSeek.Handler) (now now' : Z)
    (indicator description : option string)
    (response' : DeepSeek.StatusResponse) :
  (statusCheckInterval <= now - DeepSeek.lastStatusCheck h)%Z ->
  (now' - now < statusCheckInterval)%Z ->
  let h1 := (checkApiStatus now (DeepSeek.Status indicator description) h).1 in
  DeepSeek.lastStatusCheck h1 = now
  /\ checkApiStatus now' response' h1 = (h1, []).
Proof.
  intros Hdue Hsoon. unfold checkApiStatus at 1.
  destruct (now - DeepSeek.lastStatusCheck h <? statusCheckInterval)%Z eqn:E.
  { apply Z.ltb_lt in E. lia. }
  cbn [fst DeepSeek.lastStatusCheck]. split; [reflexivity|].
  unfold checkApiStatus. cbn [DeepSeek.lastStatusCheck].
  destruct (now' - now <? statusCheckInterval)%Z eqn:E'; [reflexivity|].
  apply Z.ltb_ge in E'. lia.
Qed.

Lemma status_kept_for_interval_witness :
  checkApiStatus 1000060000 DeepSeek.RequestFails
    (checkApiStatus 1000000000
       (DeepSeek.Status (Some "minor") (Some "Degraded")) new_handler).1
  = ((checkApiStatus 1000000000
        (DeepSeek.Status (Some "minor") (Some "Degraded")) new_handler).1, []).
Proof.
  apply (status_kept_for_interval new_handler 1000000000 1000060000
           (Some "minor"%string) (Some "Degraded"%string)
           DeepSeek.RequestFails);
    unfold statusCheckInterval; simpl; lia.
Defined.

(** X16. A check that is due and fails (the request fails, or the document
    has no [status]) is not remembered: the handler is set to operational
    with no message, even if it was not operational before, its
    [lastStatusCheck] stays where it was, and the next call at any later
    time sends a request again. *)
Theorem failed_check_is_retried (h : DeepSeek.Handler) (now now' : Z)
    (response response' : DeepSeek.StatusResponse) :
  (statusCheckInterval <= now - DeepSeek.lastStatusCheck h)%Z ->
  response = DeepSeek.RequestFails \/ response = DeepSeek.NoStatus ->
  (now <= now')%Z ->
  let h1 := (checkApiStatus now response h).1 in
  DeepSeek.apiStatus h1 = DeepSeek.mkStatus true None
  /\ DeepSeek.lastStatusCheck h1 = DeepSeek.lastStatusCheck h
  /\ (checkApiStatus now response h).2
     = [DeepSeek.Requested; DeepSeek.ConsoleError]
  /\ DeepSeek.Requested ∈ (checkApiStatus now' response' h1).2.
Proof.
  intros Hdue Hfail Hlater. unfold checkApiStatus at 1 2 3.
  destruct (now - DeepSeek.lastStatusCheck h <? statusCheckInterval)%Z eqn:E.
  { apply Z.ltb_lt in E. lia. }
  assert (Hh1 : (match response with
                 | DeepSeek.Status indicator description =>
                     (DeepSeek.mkHandler
                        (DeepSeek.mkStatus
                           (bool_decide (indicator = Some "none"%string))
                           description) now, [DeepSeek.Requested])
                 | _ =>
                     (DeepSeek.mkHandler (DeepSeek.mkStatus true None)
                        (DeepSeek.lastStatusCheck h),
                      [DeepSeek.Requested; DeepSeek.ConsoleError])
                 end)
                = (DeepSeek.mkHandler (DeepSeek.mkStatus true None)
                     (DeepSeek.lastStatusCheck h),
                   [DeepSeek.Requested; DeepSeek.ConsoleError])).
  { destruct Hfail as [-> | ->]; reflexivity. }
  rewrite Hh1. cbn [fst snd DeepSeek.apiStatus DeepSeek.lastStatusCheck].
  repeat split.
  unfold checkApiStatus. cbn [DeepSeek.lastStatusCheck].
  destruct (now' - DeepSeek.lastStatusCheck h <? statusCheckInterval)%Z eqn:E'.
  { apply Z.ltb_lt in E'. lia. }
  destruct response'; cbn [snd]; apply elem_of_cons; left; reflexivity.
Qed.

Lemma failed_check_is_retried_witness :
  DeepSeek.Requested
  ∈ (checkApiStatus 1000000001 DeepSeek.NoStatus
       (checkApiStatus 1000000000 DeepSeek.RequestFails new_handler).1).2.
Proof.
  apply (failed_check_is_retried new_handler 1000000000 1000000001
           DeepSeek.RequestFails DeepSeek.NoStatus);
    [unfold statusCheckInterval; simpl; lia | left; reflexivity | lia].
Defined.

(** X17. [completePrompt] changes the handler exactly as [checkApiStatus]
    does and throws exactly when the parent's [completePrompt] throws.
    When the handler is operational after the check, the text returned is
    the parent's text, unchanged. The handler is not operational after the
    check only if this call fetched a status whose indicator is not
    "none", or sent no request and the handler was already not
    operational. *)
Theorem completePrompt_passes_through (h : DeepSeek.Handler) (now : Z)
    (response : DeepSeek.StatusResponse)
    (parent : string -> option DeepSeek.ApiError + string) (prompt : string) :
  let '(h', events, out) := completePrompt now response parent prompt h in
  (h', events) = checkApiStatus now response h
  /\ throws out = throws (parent prompt)
  /\ (DeepSeek.operational (DeepSeek.apiStatus h') = true ->
      forall text, parent prompt = inr text -> out = inr text)
  /\ (DeepSeek.operational (DeepSeek.apiStatus h') = false ->
      (events = [] /\ DeepSeek.operational (DeepSeek.apiStatus h) = false)
      \/ (exists indicator description,
            response = DeepSeek.Status indicator description
            /\ indicator <> Some "none"%string
            /\ events = [DeepSeek.Requested])).
Proof.
  unfold completePrompt.
  destruct (checkApiStatus now response h) as [h' events] eqn:Hcheck.
  assert (Hop : DeepSeek.operational (DeepSeek.apiStatus h') = false ->
      (events = [] /\ DeepSeek.operational (DeepSeek.apiStatus h) = false)
      \/ (exists indicator description,
            response = DeepSeek.Status indicator description
            /\ indicator <> Some "none"%string
            /\ events = [DeepSeek.Requested])).
  { unfold checkApiStatus in Hcheck.
    destruct (now - DeepSeek.lastStatusCheck h <? statusCheckInterval)%Z.
    - injection Hcheck as <- <-. intros H. left. split; [reflexivity|exact H].
    - destruct response as [| |indicator description];
        injection Hcheck as <- <-;
        cbn [DeepSeek.operational DeepSeek.apiStatus]; try discriminate.
      intros H. right. exists indicator, description.
      apply bool_decide_eq_false in H. repeat split. exact H. }
  destruct (parent prompt) as [error|text].
  - split; [reflexivity|]. split; [reflexivity|].
    split; [intros _ text' H'; discriminate | exact Hop].
  - split; [reflexivity|]. split; [reflexivity|]. split; [|exact Hop].
    intros Hoper text' [= <-]. unfold statusWarning. rewrite Hoper.
    reflexivity.
Qed.

Lemma completePrompt_passes_through_witness :
  completePrompt 1000000000 (DeepSeek.Status (Some "none") None)
    (fun _ => inr "done"%string) "hello" new_handler
  = (DeepSeek.mkHandler (DeepSeek.mkStatus true None) 1000000000,
     [DeepSeek.Requested], inr "done"%string).
Proof.
  pose proof (completePrompt_passes_through new_handler 1000000000
                (DeepSeek.Status (Some "none"%string) None)
                (fun _ => inr "done"%string) "hello"%string) as H.
  destruct (completePrompt 1000000000 (DeepSeek.Status (Some "none"%string) None)
              (fun _ => inr "done"%string) "hello"%string new_handler)
    as [[h' events] out] eqn:E.
  destruct H as (Hcheck & _ & Hsame & _).
  vm_compute in Hcheck. injection Hcheck as -> ->.
  rewrite (Hsame eq_refl "done"%string eq_refl). reflexivity.
Defined.

Lemma or_string_code (error : DeepSeek.ApiError) :
  match truthy_str (DeepSeek.error_code error) with
  | Some c => c
  | None =>
      match truthy_str (DeepSeek.error_type error) with
      | Some t => t
      | None => ""%string
      end
  end = effective_code error.
Proof. reflexivity. Qed.

(** Under the name of a member of [Object.prototype] the table gives that
    member, and its text becomes the message. *)
Example formatDeepSeekError_inherited_code :
  formatDeepSeekError new_handler
    (Some (DeepSeek.mkError (Some "boom") (Some "constructor") None))
  = "DeepSeek API Error: function Object() { [native code] }"%string.
Proof. reflexivity. Qed.

(** X18. The status of the service enters an error message for two codes
    only: for an error whose code is neither "service_unavailable" nor
    "internal_server_error", and for any error while the handler is
    operational, [formatDeepSeekError] returns the same text whatever the
    handler holds. When the code of the error is in the table, the text
    does not depend on [error.message]. *)
Theorem formatDeepSeekError_independence (h1 h2 : DeepSeek.Handler)
    (error : DeepSeek.ApiError) :
  (status_related (effective_code error) = false ->
   formatDeepSeekError h1 (Some error) = formatDeepSeekError h2 (Some error))
  /\ (DeepSeek.operational (DeepSeek.apiStatus h1) = true ->
      DeepSeek.operational (DeepSeek.apiStatus h2) = true ->
      formatDeepSeekError h1 (Some error) = formatDeepSeekError h2 (Some error))
  /\ (forall message',
        is_Some (lookup_code DEEPSEEK_ERROR_CODES (effective_code error)) ->
        formatDeepSeekError h1
          (Some (DeepSeek.mkError message' (DeepSeek.error_code error)
                   (DeepSeek.error_type error)))
        = formatDeepSeekError h1 (Some error)).
Proof.
  unfold formatDeepSeekError. cbn [DeepSeek.error_code DeepSeek.error_type
    DeepSeek.error_message]. rewrite !or_string_code.
  set (c := effective_code error).
  split; [|split].
  - intros Hrel. destruct (truthy_str (Some c)) as [c'|] eqn:Ec;
      [|reflexivity].
    assert (c' = c) as ->.
    { destruct c; [discriminate | injection Ec as <-; reflexivity]. }
    destruct (lookup_code DEEPSEEK_ERROR_CODES c); [|reflexivity].
    unfold status_related in Hrel. rewrite Hrel, !andb_false_r. reflexivity.
  - intros H1 H2. rewrite H1, H2. cbn [negb andb]. reflexivity.
  - intros message' [text Htext].
    destruct (truthy_str (Some c)) as [c'|] eqn:Ec.
    + assert (c' = c) as ->.
      { destruct c; [discriminate | injection Ec as <-; reflexivity]. }
      rewrite Htext. reflexivity.
    + destruct c; [|discriminate]. discriminate Htext.
Qed.

Lemma formatDeepSeekError_independence_witness :
  formatDeepSeekError new_handler
    (Some (DeepSeek.mkError (Some "quota") (Some "insufficient_quota") None))
  = formatDeepSeekError
      (DeepSeek.mkHandler (DeepSeek.mkStatus false (Some "Outage")) 5)
      (Some (DeepSeek.mkError (Some "quota") (Some "insufficient_quota") None)).
Proof.
  apply (proj1 (formatDeepSeekError_independence new_handler
                  (DeepSeek.mkHandler
                     (DeepSeek.mkStatus false (Some "Outage"%string)) 5)
                  (DeepSeek.mkError (Some "quota"%string)
                     (Some "insufficient_quota"%string) None))).
  reflexivity.
Defined.

(** ** The records and the prototype *)

(** C10, where the code departs from it. For a request with
    [provider: "constructor"] and a duration of 5, the read of line 300
    finds the inherited function [Object], so the tally stored in
    [requestsByProvider] is that function's text followed by 1, and the
    duration stored in [durationByProvider] by lines 301-302 is the text
    followed by 5: neither is a number. For [provider: "__proto__"] both
    assignments go to the setter of [__proto__], and the two records stay
    empty although the request is in the history. *)
Theorem inherited_provider_stores_text :
  (exists r,
     getApiMetrics [constructor_request] [] = (inr r, [])
     /\ requestsByProvider r
        = {[ "constructor"%string
             := Js.Str "function Object() { [native code] }" [1%Q] ]}
     /\ durationByProvider r
        = {[ "constructor"%string
             := Js.Str "function Object() { [native code] }" [5%Q] ]})
  /\ (exists r,
       getApiMetrics [proto_request] [] = (inr r, [])
       /\ requestsByProvider r = ∅
       /\ durationByProvider r = ∅
       /\ Entry.provider <$> performanceHistory r
          = [Some "__proto__"%string]).
Proof.
  split; eexists; (split; [vm_compute; reflexivity|]);
    repeat split; vm_compute; reflexivity.
Qed.

(** X19. [requestsByProvider] and [durationByProvider] always have the
    same keys. When no [provider] of a request with a positive derived
    duration is the name of a member of [Object.prototype], every value of
    [requestsByProvider] is a whole number that is at least 1 and every
    value of [durationByProvider] is a number above zero. The same holds of
    [requestsByModel] and [durationByModel] with [modelId]. *)
Theorem records_tied_for_ordinary_keys (messages : list ClineMessage)
    (log : list Error) :
  exists r log',
    getApiMetrics messages log = (inr r, log')
    /\ dom (requestsByProvider r) = dom (durationByProvider r)
    /\ dom (requestsByModel r) = dom (durationByModel r)
    /\ (ordinary_keys provider (timed messages) ->
        (forall k v, requestsByProvider r !! k = Some v ->
                     exists n, v = Js.of_nat n /\ 1 <= n)
        /\ (forall k v, durationByProvider r !! k = Some v ->
                        exists d, v = Js.Num d /\ (0 < d)%Q))
    /\ (ordinary_keys modelId (timed messages) ->
        (forall k v, requestsByModel r !! k = Some v ->
                     exists n, v = Js.of_nat n /\ 1 <= n)
        /\ (forall k v, durationByModel r !! k = Some v ->
                        exists d, v = Js.Num d /\ (0 < d)%Q)).
Proof.
  exists (closed messages), (log ++ omap failure messages).
  split; [apply getApiMetrics_is_closed|].
  destruct (closed_fields messages)
    as (_ & _ & _ & _ & _ & _ & -> & -> & -> & -> & _).
  split; [apply dom_folds; reflexivity|].
  split; [apply dom_folds; reflexivity|].
  assert (Hnum : forall sel,
    ordinary_keys sel (timed messages) ->
    (forall k v,
       fold_left (fun m tp => tally (sel tp.2) m) (timed messages) ∅ !! k
       = Some v -> exists n, v = Js.of_nat n /\ 1 <= n)
    /\ (forall k v,
          fold_left (fun m tp => charge (sel tp.2) (requestDuration tp.2) m)
            (timed messages) ∅ !! k
          = Some v -> exists d, v = Js.Num d /\ (0 < d)%Q)).
  { intros sel Hord.
    destruct (tied_folds sel (timed messages) ∅ ∅ (timed_positive messages)
                tied_empty) as (_ & Hcnt & Hdur).
    rewrite (tallies_from_empty _ _ Hord), (charges_from_empty _ _ Hord).
    split; intros k v; rewrite lookup_fmap; intros Hv;
      apply fmap_Some in Hv as (x & Hx & ->); exists x;
      (split; [reflexivity|]); [eapply Hcnt | eapply Hdur]; exact Hx. }
  split; apply Hnum.
Qed.

Lemma records_tied_for_ordinary_keys_witness :
  exists r log',
    getApiMetrics scenario1 [] = (inr r, log')
    /\ dom (requestsByProvider r) = dom (durationByProvider r)
    /\ (forall k v, requestsByProvider r !! k = Some v ->
                    exists n, v = Js.of_nat n /\ 1 <= n)
    /\ (forall k v, durationByProvider r !! k = Some v ->
                    exists d, v = Js.Num d /\ (0 < d)%Q).
Proof.
  destruct (records_tied_for_ordinary_keys scenario1 [])
    as (r & log' & Hrun & Hdom & _ & Hp & _).
  exists r, log'. split; [exact Hrun|]. split; [exact Hdom|].
  apply Hp. repeat constructor.
Defined.
